(** * DragDrop: the drag-and-drop acquirer plugin

    A shallow embedding of the [DragDrop] class (constructor, [addFiles],
    [onInputChange], [handleDragOver], [handleDragLeave], [handleDrop],
    [install]) together with the browser facilities it touches: event
    objects, [setTimeout] / [clearTimeout] and a millisecond clock.

    The orchestrator ([this.uppy]) and [getDroppedFiles] live in other
    packages; they are an interface here (class [Collaborators]) and every
    theorem holds for all of its implementations. *)

From Stdlib Require Import String List Bool Arith Lia.
Import ListNotations.
Open Scope string_scope.
Set Warnings "-register-all".

(* ===================================================================== *)
(** ** JavaScript values and errors *)

(** The values a [relativePath] property can hold: the property may be
    missing ([undefined]), [null], or a string. *)
Inductive JsValue : Type :=
| JsUndefined
| JsNull
| JsString (s : string).

(** JavaScript truthiness: [undefined], [null] and the empty string are
    falsy, every other string is truthy. *)
Definition truthy (v : JsValue) : bool :=
  match v with
  | JsUndefined => false
  | JsNull => false
  | JsString s => negb (s =? "")
  end.

(** [a || b] *)
Definition js_or (a b : JsValue) : JsValue :=
  if truthy a then a else b.

Record JsError : Type := mkError { err_name : string; err_message : string }.

Definition TypeError (message : string) : JsError :=
  {| err_name := "TypeError"; err_message := message |}.

(** Outcome of running a piece of JavaScript: it returns or it throws. *)
Inductive Result (A : Type) : Type :=
| Ok (a : A)
| Throw (e : JsError).
Arguments Ok {A} a.
Arguments Throw {A} e.

(* ===================================================================== *)
(** ** Files and descriptors *)

Module File.
(** A platform file handle as [addFiles] reads it. [blob] stands for the
    bytes, which the plugin never inspects. *)
Record t : Type := mk {
  name : string;
  type : string;
  relativePath : JsValue;
  blob : nat
}.
End File.

Module Descriptor.
Record meta_t : Type := mkMeta { relativePath : JsValue }.

(** The object literal built in [addFiles]. *)
Record t : Type := mk {
  source : string;
  name : string;
  type : string;
  data : File.t;
  meta : meta_t
}.
End Descriptor.

(* ===================================================================== *)
(** ** Events *)

(** What a drop payload holds: files, entries that cannot be read, and
    directories of further entries. *)
Inductive Entry : Type :=
| EntryFile (f : File.t)
| EntryBroken (e : JsError)
| EntryDirectory (dirname : string) (children : list Entry).

Record DataTransfer : Type := mkDataTransfer {
  types : list string;
  items : list Entry;
  dropEffect : string
}.

(** [cancelable] is fixed when the event is created: a browser's dragover
    and drop events are cancelable, its dragleave events are not. *)
Record DragEvent : Type := mkDragEvent {
  dataTransfer : DataTransfer;
  cancelable : bool;
  defaultPrevented : bool;
  propagationStopped : bool
}.

(** The change event of the hidden file input: [event.target.files] and
    [event.target.value]. *)
Record ChangeEvent : Type := mkChangeEvent {
  target_files : list File.t;
  target_value : JsValue
}.

Definition with_dropEffect (v : string) (event : DragEvent) : DragEvent :=
  {| dataTransfer :=
       {| types := types (dataTransfer event);
          items := items (dataTransfer event);
          dropEffect := v |};
     cancelable := cancelable event;
     defaultPrevented := defaultPrevented event;
     propagationStopped := propagationStopped event |}.

(** [event.preventDefault()]: it only takes effect on a cancelable event. *)
Definition with_defaultPrevented (event : DragEvent) : DragEvent :=
  {| dataTransfer := dataTransfer event;
     cancelable := cancelable event;
     defaultPrevented := defaultPrevented event || cancelable event;
     propagationStopped := propagationStopped event |}.

Definition with_propagationStopped (event : DragEvent) : DragEvent :=
  {| dataTransfer := dataTransfer event;
     cancelable := cancelable event;
     defaultPrevented := defaultPrevented event;
     propagationStopped := true |}.

Definition with_target_value (v : JsValue) (event : ChangeEvent) : ChangeEvent :=
  {| target_files := target_files event; target_value := v |}.

(* ===================================================================== *)
(** ** Options and observers *)

(** An observer callback supplied by the host page.  It is foreign code:
    all the plugin can see of it is whether the call returns ([None]) or
    throws ([Some e]). *)
Definition Observer : Type := DragEvent -> option JsError.

(** The part of [this.opts] the handlers read.  A callback that was not
    passed is [None] ([undefined] in the merged options object). *)
Record Options : Type := mkOptions {
  id : option string;
  onDragOver : option Observer;
  onDragLeave : option Observer;
  onDrop : option Observer
}.

Inductive EventKind : Type := KDragOver | KDragLeave | KDrop.

Inductive LogMessage : Type :=
| LogText (s : string)
| LogError (e : JsError).

(** Everything a handler does that the outside can observe, in the order
    it happens. *)
Inductive Effect : Type :=
| EPreventDefault
| EStopPropagation
| ESetDropEffect (v : string)
| EClearTimeout (handle : option nat)
| ESetTimeout (handle : nat) (delay : nat)
| ETimerFired (handle : nat)
| ESetPluginState (isDraggingOver : bool)
| EGetDroppedFiles (dt : DataTransfer)
| ELog (message : LogMessage) (level : option string)
| EAddFiles (descriptors : list Descriptor.t)
| EObserver (kind : EventKind) (event : DragEvent)
| EClearInput.

(* ===================================================================== *)
(** ** External collaborators *)

(** The orchestrator and the drop-payload reader.  [uppy_addFiles] may
    reject a batch by throwing ([Some e]); [getDroppedFiles] returns the
    files that resolved and the errors it handed to [logDropError]. *)
Class Collaborators : Type := {
  UppyState : Type;
  allowNewUpload : UppyState -> bool;
  uppy_addFiles : list Descriptor.t -> UppyState -> option JsError * UppyState;
  getDroppedFiles : DataTransfer -> list File.t * list JsError
}.

(* ===================================================================== *)
(** ** The plugin instance and its surroundings *)

Section Model.
Context {C : Collaborators}.

(** The fields of [this] the handlers use, the plugin state kept by the
    orchestrator ([isDraggingOver]), the orchestrator's own state, the
    clock in milliseconds, the pending timers (handle and due time) and
    the record of effects so far. *)
Record World : Type := mkWorld {
  this_id : string;
  opts : Options;
  removeDragOverClassTimeout : option nat;
  isDraggingOver : bool;
  uppy : UppyState;
  now : nat;
  nextTimerId : nat;
  timers : list (nat * nat);
  trace : list Effect
}.

Definition set_removeDragOverClassTimeout (h : option nat) (w : World) : World :=
  mkWorld (this_id w) (opts w) h (isDraggingOver w) (uppy w) (now w)
          (nextTimerId w) (timers w) (trace w).

Definition set_isDraggingOver (b : bool) (w : World) : World :=
  mkWorld (this_id w) (opts w) (removeDragOverClassTimeout w) b (uppy w) (now w)
          (nextTimerId w) (timers w) (trace w).

Definition set_uppy (u : UppyState) (w : World) : World :=
  mkWorld (this_id w) (opts w) (removeDragOverClassTimeout w) (isDraggingOver w)
          u (now w) (nextTimerId w) (timers w) (trace w).

Definition set_now (t : nat) (w : World) : World :=
  mkWorld (this_id w) (opts w) (removeDragOverClassTimeout w) (isDraggingOver w)
          (uppy w) t (nextTimerId w) (timers w) (trace w).

Definition set_nextTimerId (n : nat) (w : World) : World :=
  mkWorld (this_id w) (opts w) (removeDragOverClassTimeout w) (isDraggingOver w)
          (uppy w) (now w) n (timers w) (trace w).

Definition set_timers (ts : list (nat * nat)) (w : World) : World :=
  mkWorld (this_id w) (opts w) (removeDragOverClassTimeout w) (isDraggingOver w)
          (uppy w) (now w) (nextTimerId w) ts (trace w).

Definition set_trace (tr : list Effect) (w : World) : World :=
  mkWorld (this_id w) (opts w) (removeDragOverClassTimeout w) (isDraggingOver w)
          (uppy w) (now w) (nextTimerId w) (timers w) tr.

(* --------------------------------------------------------------------- *)
(** *** A state-and-exception monad for handler bodies

    A handler runs on the world and on the event object it was given
    (which it mutates); it returns or throws. *)

Definition M (E A : Type) : Type := World * E -> Result A * (World * E).

Definition ret {E A} (a : A) : M E A := fun s => (Ok a, s).

Definition bind {E A B} (m : M E A) (k : A -> M E B) : M E B :=
  fun s =>
    match m s with
    | (Ok a, s') => k a s'
    | (Throw e, s') => (Throw e, s')
    end.

Definition throw {E A} (e : JsError) : M E A := fun s => (Throw e, s).

(** [try { body } catch (err) { handler err }] *)
Definition tryCatch {E A} (body : M E A) (handler : JsError -> M E A) : M E A :=
  fun s =>
    match body s with
    | (Ok a, s') => (Ok a, s')
    | (Throw e, s') => handler e s'
    end.

Definition getWorld {E} : M E World := fun s => (Ok (fst s), s).
Definition getEvent {E} : M E E := fun s => (Ok (snd s), s).
Definition modifyWorld {E} (f : World -> World) : M E unit :=
  fun s => (Ok tt, (f (fst s), snd s)).
Definition modifyEvent {E} (f : E -> E) : M E unit :=
  fun s => (Ok tt, (fst s, f (snd s))).

Notation "x <- c1 ;; c2" := (bind c1 (fun x => c2))
  (at level 61, c1 at next level, right associativity).
Notation "c1 ;; c2" := (bind c1 (fun _ => c2))
  (at level 61, right associativity).

Definition emit {E} (x : Effect) : M E unit :=
  modifyWorld (fun w => set_trace (trace w ++ [x]) w).

(* --------------------------------------------------------------------- *)
(** *** Browser and orchestrator primitives *)

Definition preventDefault : M DragEvent unit :=
  modifyEvent with_defaultPrevented ;; emit EPreventDefault.

Definition stopPropagation : M DragEvent unit :=
  modifyEvent with_propagationStopped ;; emit EStopPropagation.

Definition setDropEffect (v : string) : M DragEvent unit :=
  modifyEvent (with_dropEffect v) ;; emit (ESetDropEffect v).

Definition cancelTimer (handle : option nat) (ts : list (nat * nat)) : list (nat * nat) :=
  match handle with
  | None => ts
  | Some h => filter (fun t => negb (Nat.eqb (fst t) h)) ts
  end.

(** [clearTimeout(handle)]: a handle that is [null], already fired or
    already cleared is ignored. *)
Definition clearTimeout {E} (handle : option nat) : M E unit :=
  modifyWorld (fun w => set_timers (cancelTimer handle (timers w)) w) ;;
  emit (EClearTimeout handle).

(** [setTimeout(callback, delay)].  The plugin has one timer callback,
    [() => this.setPluginState({ isDraggingOver: false })], so a pending
    timer is its handle and its due time. *)
Definition setTimeout {E} (delay : nat) : M E nat :=
  w <- getWorld ;;
  let h := nextTimerId w in
  modifyWorld (fun w => set_nextTimerId (S h) (set_timers (timers w ++ [(h, now w + delay)]) w)) ;;
  emit (ESetTimeout h delay) ;;
  ret h.

(** [this.setPluginState({ isDraggingOver })] *)
Definition setPluginState {E} (b : bool) : M E unit :=
  modifyWorld (set_isDraggingOver b) ;; emit (ESetPluginState b).

(** [this.uppy.log(message, type)] *)
Definition uppy_log {E} (message : LogMessage) (level : option string) : M E unit :=
  emit (ELog message level).

(** [this.uppy.addFiles(descriptors)] *)
Definition call_uppy_addFiles {E} (descriptors : list Descriptor.t) : M E unit :=
  emit (EAddFiles descriptors) ;;
  w <- getWorld ;;
  let r := uppy_addFiles descriptors (uppy w) in
  modifyWorld (set_uppy (snd r)) ;;
  match fst r with
  | None => ret tt
  | Some e => throw e
  end.

(** Calling a function value with the event object. *)
Definition callObserver (kind : EventKind) (f : Observer) : M DragEvent unit :=
  event <- getEvent ;;
  emit (EObserver kind event) ;;
  match f event with
  | None => ret tt
  | Some e => throw e
  end.

Fixpoint forEach {E A} (f : A -> M E unit) (l : list A) : M E unit :=
  match l with
  | [] => ret tt
  | a :: l' => f a ;; forEach f l'
  end.

(* --------------------------------------------------------------------- *)
(** *** The class *)

(** [this.id = opts.id || 'DragDrop'], [this.opts = { ...defaultOpts, ...opts }],
    [this.removeDragOverClassTimeout = null].  Until [install] the plugin
    state has no [isDraggingOver]; [render] reads that as false. *)
Definition new_DragDrop (core : UppyState) (o : Options) : World :=
  {| this_id := match id o with
                | Some s => if s =? "" then "DragDrop" else s
                | None => "DragDrop"
                end;
     opts := o;
     removeDragOverClassTimeout := None;
     isDraggingOver := false;
     uppy := core;
     now := 0;
     nextTimerId := 0;
     timers := [];
     trace := [] |}.

(** [install()]: [this.setPluginState({ isDraggingOver: false })]. *)
Definition install (w : World) : World :=
  set_trace (trace w ++ [ESetPluginState false]) (set_isDraggingOver false w).

(** The arrow function mapped over the files in [addFiles]. *)
Definition descriptorOf (source : string) (file : File.t) : Descriptor.t :=
  {| Descriptor.source := source;
     Descriptor.name := File.name file;
     Descriptor.type := File.type file;
     Descriptor.data := file;
     Descriptor.meta :=
       {| Descriptor.relativePath := js_or (File.relativePath file) JsNull |} |}.

Definition addFiles {E} (files : list File.t) : M E unit :=
  w <- getWorld ;;
  let descriptors := map (descriptorOf (this_id w)) files in
  tryCatch
    (call_uppy_addFiles descriptors)
    (fun err => uppy_log (LogError err) None).

Definition onInputChange : M ChangeEvent unit :=
  event <- getEvent ;;
  let files := target_files event in
  (if Nat.ltb 0 (length files) then
     uppy_log (LogText "[DragDrop] Files selected through input") None ;;
     addFiles files
   else ret tt) ;;
  modifyEvent (with_target_value JsNull) ;;
  emit EClearInput.

(** [types.some((type) => type === 'Files')] *)
Definition hasFiles (event : DragEvent) : bool :=
  existsb (fun type => type =? "Files") (types (dataTransfer event)).

Definition handleDragOver : M DragEvent unit :=
  preventDefault ;;
  stopPropagation ;;
  event <- getEvent ;;
  let hasFiles := hasFiles event in
  w <- getWorld ;;
  let allowNewUpload := allowNewUpload (uppy w) in
  if negb hasFiles || negb allowNewUpload then
    setDropEffect "none" ;;
    clearTimeout (removeDragOverClassTimeout w) ;;
    ret tt
  else
    setDropEffect "copy" ;;
    clearTimeout (removeDragOverClassTimeout w) ;;
    setPluginState true ;;
    (* this.opts?.onDragOver(event): [this.opts] is always an object, so
       the optional chain guards nothing and the property is called. *)
    match onDragOver (opts w) with
    | Some f => callObserver KDragOver f
    | None => throw (TypeError "this.opts.onDragOver is not a function")
    end.

Definition handleDragLeave : M DragEvent unit :=
  preventDefault ;;
  stopPropagation ;;
  w <- getWorld ;;
  clearTimeout (removeDragOverClassTimeout w) ;;
  h <- setTimeout 50 ;;
  modifyWorld (set_removeDragOverClassTimeout (Some h)) ;;
  (* this.opts?.onDragLeave(event) *)
  match onDragLeave (opts w) with
  | Some f => callObserver KDragLeave f
  | None => throw (TypeError "this.opts.onDragLeave is not a function")
  end.

(** The [logDropError] closure of [handleDrop]. *)
Definition logDropError {E} (error : JsError) : M E unit :=
  uppy_log (LogError error) (Some "error").

(** [handleDrop] is an async function; its one [await] is on
    [getDroppedFiles], modelled as resolving before the next input is
    dispatched. *)
Definition handleDrop : M DragEvent unit :=
  preventDefault ;;
  stopPropagation ;;
  w <- getWorld ;;
  clearTimeout (removeDragOverClassTimeout w) ;;
  setPluginState false ;;
  event <- getEvent ;;
  emit (EGetDroppedFiles (dataTransfer event)) ;;
  let dropped := getDroppedFiles (dataTransfer event) in
  forEach logDropError (snd dropped) ;;
  let files := fst dropped in
  (if Nat.ltb 0 (length files) then
     uppy_log (LogText "[DragDrop] Files dropped") None ;;
     addFiles files
   else ret tt) ;;
  (* this.opts.onDrop?.(event) *)
  match onDrop (opts w) with
  | Some f => callObserver KDrop f
  | None => ret tt
  end.

(* --------------------------------------------------------------------- *)
(** *** The event loop: inputs, time and timers *)

(** Run the callback of every timer that is due and drop it from the
    pending list. *)
Definition fireTimers (w : World) : World :=
  let due := filter (fun t => Nat.leb (snd t) (now w)) (timers w) in
  let pending := filter (fun t => negb (Nat.leb (snd t) (now w))) (timers w) in
  fold_left
    (fun w t =>
       set_trace (trace w ++ [ETimerFired (fst t); ESetPluginState false])
                 (set_isDraggingOver false w))
    due (set_timers pending w).

Definition advance (ms : nat) (w : World) : World :=
  fireTimers (set_now (now w + ms) w).

Inductive Input : Type :=
| DragOver (event : DragEvent)
| DragLeave (event : DragEvent)
| Drop (event : DragEvent)
| Change (event : ChangeEvent)
| Wait (ms : nat).

(** Dispatching one input.  An exception escaping a handler is reported
    by the browser and does not undo what the handler already did. *)
Definition step (i : Input) (w : World) : World :=
  match i with
  | DragOver event => fst (snd (handleDragOver (w, event)))
  | DragLeave event => fst (snd (handleDragLeave (w, event)))
  | Drop event => fst (snd (handleDrop (w, event)))
  | Change event => fst (snd (onInputChange (w, event)))
  | Wait ms => advance ms w
  end.

Definition run (inputs : list Input) (w : World) : World :=
  fold_left (fun w i => step i w) inputs w.

(** The world after each input of a run, in order. *)
Fixpoint history (inputs : list Input) (w : World) : list World :=
  match inputs with
  | [] => []
  | i :: rest => step i w :: history rest (step i w)
  end.

(* --------------------------------------------------------------------- *)
(** *** Reading a handler's outcome *)

Definition completion {E A} (r : Result A * (World * E)) : Result A := fst r.
Definition worldOf {E A} (r : Result A * (World * E)) : World := fst (snd r).
Definition eventOf {E A} (r : Result A * (World * E)) : E := snd (snd r).

(** The effects added between an earlier world and a later one. *)
Definition emitted (before after : World) : list Effect :=
  skipn (length (trace before)) (trace after).

(** The batches handed to [uppy.addFiles] among some effects. *)
Fixpoint submissions (effects : list Effect) : list (list Descriptor.t) :=
  match effects with
  | [] => []
  | EAddFiles ds :: rest => ds :: submissions rest
  | _ :: rest => submissions rest
  end.

(** What one call of [addFiles] adds to the record: the submission, and the
    logged error when the orchestrator rejects. *)
Definition addFiles_effects (w : World) (files : list File.t) : list Effect :=
  let descriptors := map (descriptorOf (this_id w)) files in
  EAddFiles descriptors ::
  match fst (uppy_addFiles descriptors (uppy w)) with
  | None => []
  | Some err => [ELog (LogError err) None]
  end.

Definition after_addFiles (w : World) (files : list File.t) : World :=
  set_trace (trace w ++ addFiles_effects w files)
    (set_uppy (snd (uppy_addFiles (map (descriptorOf (this_id w)) files) (uppy w))) w).

(** The event object once [preventDefault] and [stopPropagation] ran. *)
Definition stopped (event : DragEvent) : DragEvent :=
  with_propagationStopped (with_defaultPrevented event).

(** What [handleDrop] adds to the record. *)
Definition drop_effects (w : World) (event : DragEvent) : list Effect :=
  let dropped := getDroppedFiles (dataTransfer event) in
  [EPreventDefault; EStopPropagation;
   EClearTimeout (removeDragOverClassTimeout w);
   ESetPluginState false;
   EGetDroppedFiles (dataTransfer event)]
  ++ map (fun e => ELog (LogError e) (Some "error")) (snd dropped)
  ++ match fst dropped with
     | [] => []
     | files =>
         ELog (LogText "[DragDrop] Files dropped") None :: addFiles_effects w files
     end
  ++ match onDrop (opts w) with
     | Some _ => [EObserver KDrop (stopped event)]
     | None => []
     end.

(** The drag-over gate: files advertised and new uploads allowed. *)
Definition accepts (w : World) (event : DragEvent) : bool :=
  hasFiles event && allowNewUpload (uppy w).

(** Every pending timer is the one [removeDragOverClassTimeout] names. *)
Definition timers_owned (w : World) : Prop :=
  forall t, In t (timers w) -> removeDragOverClassTimeout w = Some (fst t).

End Model.

(* ===================================================================== *)
(** ** Sample collaborators, used by the concrete examples *)

Definition with_relativePath (v : JsValue) (file : File.t) : File.t :=
  {| File.name := File.name file;
     File.type := File.type file;
     File.relativePath := v;
     File.blob := File.blob file |}.

(** Modelled from the spec: [getDroppedFiles] belongs to the utilities
    package and is not part of this one.  Per the drop channel's contract
    it expands directory entries recursively, attaches to each file found
    inside a dropped directory its path relative to that directory, skips
    and reports every entry that fails to resolve, and keeps the order of
    the payload.  A file dropped directly gets no path ([null]). *)
Fixpoint expandEntry (prefix : option string) (e : Entry) : list File.t * list JsError :=
  match e with
  | EntryFile f =>
      ([with_relativePath
          match prefix with
          | None => JsNull
          | Some p => JsString (p ++ File.name f)
          end f], [])
  | EntryBroken err => ([], [err])
  | EntryDirectory dirname children =>
      let inside :=
        match prefix with
        | None => ""
        | Some p => p ++ dirname ++ "/"
        end in
      (fix expandAll (l : list Entry) : list File.t * list JsError :=
         match l with
         | [] => ([], [])
         | c :: l' =>
             let r := expandEntry (Some inside) c in
             let rs := expandAll l' in
             ((fst r ++ fst rs)%list, (snd r ++ snd rs)%list)
         end) children
  end.

Definition getDroppedFiles_model (dt : DataTransfer) : list File.t * list JsError :=
  fold_right
    (fun e acc =>
       let r := expandEntry None e in
       ((fst r ++ fst acc)%list, (snd r ++ snd acc)%list))
    ([], []) (items dt).

(** Modelled from the spec: the orchestrator is the core package, not
    part of this one.  This one holds the allow-new-uploads flag and the
    files registered so far, and rejects every batch while the flag is
    off. *)
Record SampleUppy : Type := mkSampleUppy {
  sample_allowNewUpload : bool;
  sample_files : list Descriptor.t
}.

Definition sample_addFiles (ds : list Descriptor.t) (u : SampleUppy)
  : option JsError * SampleUppy :=
  if sample_allowNewUpload u
  then (None, mkSampleUppy true (sample_files u ++ ds))
  else (Some (mkError "RestrictionError" "Cannot add more files"), u).

Definition sampleCollaborators : Collaborators :=
  {| UppyState := SampleUppy;
     allowNewUpload := sample_allowNewUpload;
     uppy_addFiles := sample_addFiles;
     getDroppedFiles := getDroppedFiles_model |}.

Definition quietObserver : Observer := fun _ => None.

Definition noObservers : Options :=
  {| id := None; onDragOver := None; onDragLeave := None; onDrop := None |}.

Definition allObservers : Options :=
  {| id := None;
     onDragOver := Some quietObserver;
     onDragLeave := Some quietObserver;
     onDrop := Some quietObserver |}.

Definition sampleFile : File.t :=
  {| File.name := "a.pdf"; File.type := "application/pdf";
     File.relativePath := JsUndefined; File.blob := 1 |}.

Definition fileDrag : DragEvent :=
  {| dataTransfer :=
       {| types := ["Files"]; items := [EntryFile sampleFile]; dropEffect := "none" |};
     cancelable := true;
     defaultPrevented := false;
     propagationStopped := false |}.

(** The same drag leaving the element: a dragleave event, not cancelable. *)
Definition fileLeave : DragEvent :=
  {| dataTransfer :=
       {| types := ["Files"]; items := [EntryFile sampleFile]; dropEffect := "none" |};
     cancelable := false;
     defaultPrevented := false;
     propagationStopped := false |}.

Definition onlyOnDrop : Options :=
  {| id := None; onDragOver := None; onDragLeave := None;
     onDrop := Some quietObserver |}.

Definition onlyOnDragLeave : Options :=
  {| id := None; onDragOver := None; onDragLeave := Some quietObserver;
     onDrop := None |}.

Definition textDrag : DragEvent :=
  {| dataTransfer :=
       {| types := ["text/plain"]; items := []; dropEffect := "none" |};
     cancelable := true;
     defaultPrevented := false;
     propagationStopped := false |}.

Definition sampleWorld (allow : bool) (o : Options) : World (C := sampleCollaborators) :=
  install (new_DragDrop (C := sampleCollaborators) (mkSampleUppy allow []) o).

(** A fresh plugin that has seen one accepted drag-over. *)
Definition hoveringWorld : World (C := sampleCollaborators) :=
  run [DragOver fileDrag] (sampleWorld true allObservers).

(** The same plugin after a drag-leave: hovering, with the timer pending. *)
Definition leavingWorld : World (C := sampleCollaborators) :=
  run [DragOver fileDrag; DragLeave fileDrag] (sampleWorld true allObservers).

(** A handle whose [relativePath] is the empty string. *)
Definition emptyPathFile : File.t := with_relativePath (JsString "") sampleFile.

Definition pickerChange : ChangeEvent :=
  {| target_files := [sampleFile]; target_value := JsString "a.pdf" |}.

(* ===================================================================== *)
(** ** Further readings of a run *)

Section Readings.
Context {C : Collaborators}.

(** The shape the pending timers keep: none, or exactly the one that
    [removeDragOverClassTimeout] names, due within the next 50 ms. *)
Definition debounce_invariant (w : World) : Prop :=
  timers w = [] \/
  exists h due,
    timers w = [(h, due)] /\
    removeDragOverClassTimeout w = Some h /\
    now w < due /\ due <= now w + 50.

End Readings.

(** The errors logged at level ['error'] among some effects, in order. *)
Fixpoint errorLogs (effects : list Effect) : list JsError :=
  match effects with
  | [] => []
  | ELog (LogError e) (Some level) :: rest =>
      if level =? "error" then e :: errorLogs rest else errorLogs rest
  | _ :: rest => errorLogs rest
  end.

(** Whether some effect is a timer going off. *)
Definition isTimerFired (x : Effect) : bool :=
  match x with
  | ETimerFired _ => true
  | _ => false
  end.

(* ===================================================================== *)
(** ** Objects, as option bags and props are built *)

(** Values found in options and props: primitives, and references to host
    objects (an Uppy instance, a DOM node, an array, a function). *)
Inductive JsAny : Type :=
| AnyUndefined
| AnyNull
| AnyBool (b : bool)
| AnyNumber (n : nat)
| AnyString (s : string)
| AnyObject (ref : nat).

(** [a === b] *)
Definition strict_eq (a b : JsAny) : bool :=
  match a, b with
  | AnyUndefined, AnyUndefined => true
  | AnyNull, AnyNull => true
  | AnyBool x, AnyBool y => Bool.eqb x y
  | AnyNumber x, AnyNumber y => Nat.eqb x y
  | AnyString x, AnyString y => String.eqb x y
  | AnyObject x, AnyObject y => Nat.eqb x y
  | _, _ => false
  end.

Definition isObject (v : JsAny) : bool :=
  match v with
  | AnyObject _ => true
  | _ => false
  end.

(** An object is its own properties in insertion order. *)
Definition ObjectOf (V : Type) : Type := list (string * V).
Definition JsObject : Type := ObjectOf JsAny.

(** The own property [key], if there is one. *)
Fixpoint obj_get {V} (key : string) (o : ObjectOf V) : option V :=
  match o with
  | [] => None
  | (k, v) :: rest => if k =? key then Some v else obj_get key rest
  end.

(** [o.key]: a missing property reads as [undefined]. *)
Definition js_read (key : string) (o : JsObject) : JsAny :=
  match obj_get key o with
  | Some v => v
  | None => AnyUndefined
  end.

(** [o.key = v]: an existing property keeps its place, a new one goes
    last. *)
Fixpoint obj_set {V} (key : string) (v : V) (o : ObjectOf V) : ObjectOf V :=
  match o with
  | [] => [(key, v)]
  | (k, x) :: rest =>
      if k =? key then (k, v) :: rest else (k, x) :: obj_set key v rest
  end.

(** [{ ...target, ...source }]: the properties of [source] are assigned to
    [target] one after the other. *)
Definition obj_spread {V} (source target : ObjectOf V) : ObjectOf V :=
  fold_left (fun acc kv => obj_set (fst kv) (snd kv) acc) source target.

(** [delete o.key] *)
Definition obj_delete {V} (key : string) (o : ObjectOf V) : ObjectOf V :=
  filter (fun kv => negb (fst kv =? key)) o.

(* ===================================================================== *)
(** ** DragDrop: options and rendering *)

(** [defaultOpts] of the constructor. *)
Definition defaultOpts : JsObject :=
  [("target", AnyNull);
   ("inputName", AnyString "files[]");
   ("width", AnyString "100%");
   ("height", AnyString "100%");
   ("note", AnyNull)].

(** [this.opts = { ...defaultOpts, ...opts }] *)
Definition mergedOpts (opts : JsObject) : JsObject :=
  obj_spread opts (obj_spread defaultOpts []).

(** The functions the rendered elements are wired to. *)
Inductive Handler : Type :=
| HOnInputChange
| HHandleDragOver
| HHandleDragLeave
| HHandleDrop
| HClickFileInput
| HSetFileInputRef
| HSetContainer.

Inductive AttrValue : Type :=
| AStr (s : string)
| ABool (b : bool)
| AAny (v : JsAny)
| AHandler (h : Handler)
| AStyle (style : JsObject).

(** A virtual DOM node: an element, an expression put in as a child, or a
    translated string with elements filled in. *)
Inductive VNode : Type :=
| Element (tag : string) (attrs : ObjectOf AttrValue) (children : list VNode)
| Expr (v : JsAny)
| I18n (key : string)
| I18nArray (key : string) (slots : list (string * VNode)).

Definition newline : string := String (Ascii.ascii_of_nat 10) EmptyString.

Section Rendering.
Context {C : Collaborators}.

(** [this.opts] as an object, [this.uppy.opts.restrictions] and
    [this.isDragDropSupported] are not fields of [World]; the rendering
    functions take them as arguments. *)
Definition renderHiddenFileInput (this_opts restrictions : JsObject) : VNode :=
  Element "input"
    [("className", AStr "uppy-DragDrop-input");
     ("type", AStr "file");
     ("hidden", ABool true);
     ("ref", AHandler HSetFileInputRef);
     ("name", AAny (js_read "inputName" this_opts));
     ("multiple",
      ABool (negb (strict_eq (js_read "maxNumberOfFiles" restrictions) (AnyNumber 1))));
     ("accept", AAny (js_read "allowedFileTypes" restrictions));
     ("onChange", AHandler HOnInputChange)]
    [].

Definition renderArrowSvg : VNode :=
  Element "svg"
    [("aria-hidden", AStr "true");
     ("focusable", AStr "false");
     ("className", AStr "uppy-c-icon uppy-DragDrop-arrow");
     ("width", AStr "16");
     ("height", AStr "16");
     ("viewBox", AStr "0 0 16 16")]
    [Element "path"
       [("d", AStr "M11 10V0H5v10H2l6 6 6-6h-3zm0 0");
        ("fillRule", AStr "evenodd")]
       []].

Definition renderLabel : VNode :=
  Element "div"
    [("className", AStr "uppy-DragDrop-label")]
    [I18nArray "dropHereOr"
       [("browse",
         Element "span" [("className", AStr "uppy-DragDrop-browse")]
                 [I18n "browse"])]].

Definition renderNote (this_opts : JsObject) : VNode :=
  Element "span"
    [("className", AStr "uppy-DragDrop-note")]
    [Expr (js_read "note" this_opts)].

(** The template literal [dragDropClass], line breaks and indentation
    included. *)
Definition dragDropClass (isDragDropSupported : bool) (w : World) : string :=
  "uppy-Root" ++ newline ++
  "      uppy-u-reset" ++ newline ++
  "      uppy-DragDrop-container" ++ newline ++
  "      " ++ (if isDragDropSupported then "uppy-DragDrop--isDragDropSupported" else "")
  ++ newline ++
  "      " ++ (if isDraggingOver w then "uppy-DragDrop--isDraggingOver" else "")
  ++ newline ++
  "    ".

Definition render (this_opts restrictions : JsObject) (isDragDropSupported : bool)
           (w : World) : VNode :=
  let dragDropClass := dragDropClass isDragDropSupported w in
  let dragDropStyle :=
    [("width", js_read "width" this_opts);
     ("height", js_read "height" this_opts)] in
  Element "button"
    [("type", AStr "button");
     ("className", AStr dragDropClass);
     ("style", AStyle dragDropStyle);
     ("onClick", AHandler HClickFileInput);
     ("onDragOver", AHandler HHandleDragOver);
     ("onDragLeave", AHandler HHandleDragLeave);
     ("onDrop", AHandler HHandleDrop)]
    [renderHiddenFileInput this_opts restrictions;
     Element "div"
       [("className", AStr "uppy-DragDrop-inner")]
       [renderArrowSvg; renderLabel; renderNote this_opts]].

End Rendering.

(** An attribute of an element. *)
Definition attribute (name : string) (node : VNode) : option AttrValue :=
  match node with
  | Element _ attrs _ => obj_get name attrs
  | _ => None
  end.

Definition isSpace (c : Ascii.ascii) : bool :=
  match Ascii.nat_of_ascii c with
  | 9 | 10 | 12 | 13 | 32 => true
  | _ => false
  end.

(** The class names in a [class] attribute, as the browser's [classList]
    splits it: on white space, dropping empty pieces. *)
Fixpoint classTokens_from (current : string) (s : string) : list string :=
  match s with
  | EmptyString => if current =? "" then [] else [current]
  | String c rest =>
      if isSpace c
      then if current =? "" then classTokens_from "" rest
           else current :: classTokens_from "" rest
      else classTokens_from (current ++ String c EmptyString) rest
  end.

Definition classTokens (s : string) : list string := classTokens_from "" s.

Definition classList (node : VNode) : list string :=
  match attribute "className" node with
  | Some (AStr s) => classTokens s
  | _ => []
  end.

(* ===================================================================== *)
(** ** The React wrapper of the Dashboard plugin *)

(** What the component asks of an Uppy instance or of its plugin. *)
Inductive Call : Type :=
| CallUse (uppy : JsAny) (options : JsObject)
| CallRemovePlugin (uppy : JsAny) (plugin : JsAny)
| CallSetOptions (plugin : JsAny) (options : JsObject).

(** The component instance: [this.props], [this.plugin], [this.container],
    [this.validProps], and the calls it has made so far. *)
Record Dashboard : Type := mkDashboard {
  props : JsObject;
  plugin : JsAny;
  container : JsAny;
  validProps : JsObject;
  calls : list Call
}.

(** Code of the core and of sibling modules, none of it in these sources.
    The core answers a call by returning ([None]) or by throwing, and
    [uppy.getPlugin(id)] returns what it finds; both may depend on every
    call made before.  [getHTMLProps(props)] and
    [nonHtmlPropsHaveChanged(component, prevProps)] are the two helpers. *)
Class WrapperCollaborators : Type := {
  core_throws : list Call -> Call -> option JsError;
  getPlugin : list Call -> JsAny -> JsAny -> JsAny;
  getHTMLProps : JsObject -> JsObject;
  nonHtmlPropsHaveChanged : Dashboard -> JsObject -> bool
}.

Definition set_props (p : JsObject) (c : Dashboard) : Dashboard :=
  mkDashboard p (plugin c) (container c) (validProps c) (calls c).

Definition set_plugin (p : JsAny) (c : Dashboard) : Dashboard :=
  mkDashboard (props c) p (container c) (validProps c) (calls c).

Definition set_container (el : JsAny) (c : Dashboard) : Dashboard :=
  mkDashboard (props c) (plugin c) el (validProps c) (calls c).

Definition set_validProps (p : JsObject) (c : Dashboard) : Dashboard :=
  mkDashboard (props c) (plugin c) (container c) p (calls c).

Definition record (x : Call) (c : Dashboard) : Dashboard :=
  mkDashboard (props c) (plugin c) (container c) (validProps c) (calls c ++ [x]).

Section Wrapper.
Context {R : WrapperCollaborators}.

(** Calling [receiver.method(...)].  On a receiver that is not an object
    the call throws before it is made; otherwise the call is made and the
    core returns or throws. *)
Definition invoke (receiver : JsAny) (method : string) (x : Call) (c : Dashboard)
  : Result unit * Dashboard :=
  if isObject receiver
  then (match core_throws (calls c) x with
        | None => Ok tt
        | Some e => Throw e
        end,
        record x c)
  else (Throw (TypeError ("cannot call " ++ method)), c).

(** The options object of [installPlugin], after [delete options.uppy]. *)
Definition installOptions (c : Dashboard) : JsObject :=
  obj_delete "uppy"
    (obj_set "target" (container c)
       (obj_spread (props c) [("id", AnyString "react:Dashboard")])).

Definition installPlugin (c : Dashboard) : Result unit * Dashboard :=
  let uppy := js_read "uppy" (props c) in
  let options := installOptions c in
  match invoke uppy "use" (CallUse uppy options) c with
  | (Ok _, c) =>
      (Ok tt, set_plugin (getPlugin (calls c) uppy (js_read "id" options)) c)
  | thrown => thrown
  end.

(** [uninstallPlugin (props = this.props)] *)
Definition uninstallPlugin (props : JsObject) (c : Dashboard) : Result unit * Dashboard :=
  let uppy := js_read "uppy" props in
  invoke uppy "removePlugin" (CallRemovePlugin uppy (plugin c)) c.

Definition componentDidMount (c : Dashboard) : Result unit * Dashboard :=
  installPlugin c.

(** The options object of [componentDidUpdate], after [delete options.uppy]. *)
Definition updateOptions (c : Dashboard) : JsObject :=
  obj_delete "uppy" (obj_set "target" (container c) (obj_spread (props c) [])).

Definition componentDidUpdate (prevProps : JsObject) (c : Dashboard)
  : Result unit * Dashboard :=
  if negb (strict_eq (js_read "uppy" prevProps) (js_read "uppy" (props c))) then
    match uninstallPlugin prevProps c with
    | (Ok _, c) => installPlugin c
    | thrown => thrown
    end
  else if nonHtmlPropsHaveChanged c prevProps then
    let options := updateOptions c in
    invoke (plugin c) "setOptions" (CallSetOptions (plugin c) options) c
  else (Ok tt, c).

Definition componentWillUnmount (c : Dashboard) : Result unit * Dashboard :=
  uninstallPlugin (props c) c.

(** [render]: it stores [getHTMLProps(this.props)] in [this.validProps]
    and returns a [div] whose [ref] stores the node in [this.container]. *)
Definition render_Dashboard (c : Dashboard) : Dashboard * VNode :=
  let c := set_validProps (getHTMLProps (props c)) c in
  (c,
   Element "div"
     (obj_spread
        (map (fun kv => (fst kv, AAny (snd kv))) (validProps c))
        [("className", AStr "uppy-Container"); ("ref", AHandler HSetContainer)])
     []).

(** What React does with the component: it renders and mounts it into a
    node, re-renders it with new props, and unmounts it. *)
Inductive Lifecycle : Type :=
| Mount (node : JsAny)
| Update (nextProps : JsObject)
| Unmount.

Definition lifecycle (l : Lifecycle) (c : Dashboard) : Result unit * Dashboard :=
  match l with
  | Mount node =>
      componentDidMount (set_container node (fst (render_Dashboard c)))
  | Update nextProps =>
      let prevProps := props c in
      componentDidUpdate prevProps (fst (render_Dashboard (set_props nextProps c)))
  | Unmount => componentWillUnmount c
  end.

(** A lifecycle stops at the first error. *)
Fixpoint lifecycles (ls : list Lifecycle) (c : Dashboard) : Result unit * Dashboard :=
  match ls with
  | [] => (Ok tt, c)
  | l :: rest =>
      match lifecycle l c with
      | (Ok _, c') => lifecycles rest c'
      | thrown => thrown
      end
  end.

End Wrapper.

(** Reading a list of calls by their receivers alone: which Uppy instance
    was last sent [use] and not yet [removePlugin].  [use] is in order when
    there is none, [removePlugin] when it goes to that very instance,
    [setOptions] when there is one.  [None] is a call out of order. *)
Definition track (inUse : option JsAny) (x : Call) : option (option JsAny) :=
  match x, inUse with
  | CallUse uppy _, None => Some (Some uppy)
  | CallRemovePlugin uppy _, Some uppy' =>
      if strict_eq uppy uppy' then Some None else None
  | CallSetOptions _ _, Some _ => Some inUse
  | _, _ => None
  end.

Fixpoint trackAll (inUse : option JsAny) (xs : list Call) : option (option JsAny) :=
  match xs with
  | [] => Some inUse
  | x :: rest =>
      match track inUse x with
      | Some inUse' => trackAll inUse' rest
      | None => None
      end
  end.

(** The calls so far are in order and the instance last sent [use] is the
    one in [this.props.uppy]. *)
Definition tracks_installed (c : Dashboard) : Prop :=
  trackAll None (calls c) = Some (Some (js_read "uppy" (props c))).

(** A component before its first render. *)
Definition new_Dashboard (p : JsObject) : Dashboard :=
  {| props := p; plugin := AnyUndefined; container := AnyUndefined;
     validProps := []; calls := [] |}.

(** A stand-in core for the examples.  [use] registers the plugin under
    the [id] option when that is a non-empty string and under ['Dashboard']
    otherwise; [getPlugin] finds the plugin registered by the latest call
    if the id matches; [removePlugin] throws when it is not given a plugin. *)
Definition sample_pluginId (options : JsObject) : JsAny :=
  match js_read "id" options with
  | AnyString s => if s =? "" then AnyString "Dashboard" else AnyString s
  | _ => AnyString "Dashboard"
  end.

Definition sample_getPlugin (history : list Call) (uppy id : JsAny) : JsAny :=
  match last history (CallSetOptions AnyUndefined []) with
  | CallUse (AnyObject u) options =>
      if strict_eq (AnyObject u) uppy && strict_eq (sample_pluginId options) id
      then AnyObject (100 + u)
      else AnyUndefined
  | _ => AnyUndefined
  end.

Definition sample_core_throws (history : list Call) (x : Call) : option JsError :=
  match x with
  | CallRemovePlugin _ p =>
      if isObject p then None
      else Some (TypeError "Cannot read properties of undefined (reading 'uninstall')")
  | _ => None
  end.

Definition sampleWrapper : WrapperCollaborators :=
  {| core_throws := sample_core_throws;
     getPlugin := sample_getPlugin;
     getHTMLProps := fun p => obj_delete "uppy" (obj_delete "plugins" p);
     nonHtmlPropsHaveChanged := fun c prev =>
       negb (strict_eq (js_read "plugins" (props c)) (js_read "plugins" prev)) |}.

(** Props that pass [id] explicitly as [undefined]. *)
Definition sampleProps : JsObject :=
  [("uppy", AnyObject 1); ("target", AnyString "#elsewhere");
   ("id", AnyUndefined); ("plugins", AnyNumber 3)].

(** Props without an [id], before and after a change of [plugins]. *)
Definition plainProps : JsObject :=
  [("uppy", AnyObject 1); ("target", AnyString "#elsewhere");
   ("plugins", AnyNumber 3)].

Definition changedProps : JsObject :=
  [("uppy", AnyObject 1); ("target", AnyString "#elsewhere");
   ("plugins", AnyNumber 4)].

(** The component with [plainProps] once mounted into node 9. *)
Definition mountedDashboard : Dashboard :=
  snd (lifecycle (R := sampleWrapper) (Mount (AnyObject 9)) (new_Dashboard plainProps)).

(** The mounted component holding the changed props, as
    [componentDidUpdate] finds it. *)
Definition updatedDashboard : Dashboard :=
  fst (render_Dashboard (R := sampleWrapper) (set_props changedProps mountedDashboard)).

(* ===================================================================== *)
(** ** Proofs *)

Section Proofs.
Context {C : Collaborators}.

Ltac run_monad :=
  unfold preventDefault, stopPropagation, setDropEffect, clearTimeout,
    setTimeout, setPluginState, uppy_log, call_uppy_addFiles, callObserver,
    emit, modifyWorld, modifyEvent, getWorld, getEvent, tryCatch, throw,
    bind, ret;
  cbn.

Ltac flatten_trace := repeat rewrite <- app_assoc; cbn [app].

(* --------------------------------------------------------------------- *)
(** *** Effects and submissions *)

Lemma emitted_app (w w' : World) (l : list Effect) :
  trace w' = (trace w ++ l)%list -> emitted w w' = l.
Proof.
  intros H. unfold emitted. rewrite H. clear H.
  generalize (trace w) as t. induction t as [| x t IH]; cbn; auto.
Qed.

Lemma set_trace_same (w : World) : set_trace (trace w ++ []) w = w.
Proof. destruct w; unfold set_trace; cbn. now rewrite app_nil_r. Qed.

Lemma submissions_app (l1 l2 : list Effect) :
  submissions (l1 ++ l2) = (submissions l1 ++ submissions l2)%list.
Proof.
  induction l1 as [| x l1 IH]; cbn; auto.
  destruct x; cbn; auto. now rewrite IH.
Qed.

Lemma submissions_logs (errs : list JsError) (level : option string) :
  submissions (map (fun e => ELog (LogError e) level) errs) = [].
Proof. induction errs; cbn; auto. Qed.

(* --------------------------------------------------------------------- *)
(** *** [addFiles] *)

Lemma addFiles_run {E} (files : list File.t) (w : World) (event : E) :
  addFiles files (w, event) = (Ok tt, (after_addFiles w files, event)).
Proof.
  unfold addFiles, after_addFiles, addFiles_effects. run_monad.
  destruct (uppy_addFiles (map (descriptorOf (this_id w)) files) (uppy w))
    as [[err |] u]; cbn; unfold set_trace, set_uppy; cbn; flatten_trace;
    reflexivity.
Qed.

Lemma submissions_addFiles (w : World) (files : list File.t) :
  submissions (addFiles_effects w files) = [map (descriptorOf (this_id w)) files].
Proof.
  unfold addFiles_effects; cbn.
  destruct (fst (uppy_addFiles _ _)); reflexivity.
Qed.

Lemma forEach_logDropError {E} (errs : list JsError) (w : World) (event : E) :
  forEach logDropError errs (w, event) =
  (Ok tt,
   (set_trace (trace w ++ map (fun e => ELog (LogError e) (Some "error")) errs) w,
    event)).
Proof.
  revert w. induction errs as [| e errs IH]; intros w.
  - cbn. unfold ret. now rewrite set_trace_same.
  - cbn [forEach map]. unfold bind at 1. unfold logDropError at 1.
    unfold uppy_log, emit, modifyWorld. cbn [fst snd]. rewrite IH. cbn.
    unfold set_trace; cbn. flatten_trace. reflexivity.
Qed.

(* --------------------------------------------------------------------- *)
(** *** [handleDrop] *)

Ltac drop_cases w event :=
  unfold handleDrop, worldOf, eventOf, completion, drop_effects,
    addFiles_effects, addFiles, stopped;
  run_monad; rewrite forEach_logDropError; cbn;
  destruct (fst (getDroppedFiles (dataTransfer event))) as [| ?file ?files]; cbn;
  [| destruct (uppy_addFiles _ _) as [[?err |] ?u]; cbn ];
  destruct (onDrop (opts w)) as [?f |]; cbn;
  try destruct (_ : option JsError); cbn.

Lemma handleDrop_trace (w : World) (event : DragEvent) :
  trace (worldOf (handleDrop (w, event))) = (trace w ++ drop_effects w event)%list.
Proof.
  drop_cases w event; flatten_trace; try reflexivity.
  now rewrite app_nil_r.
Qed.

Lemma handleDrop_emitted (w : World) (event : DragEvent) :
  emitted w (worldOf (handleDrop (w, event))) = drop_effects w event.
Proof. apply emitted_app, handleDrop_trace. Qed.

Lemma handleDrop_state (w : World) (event : DragEvent) :
  let w' := worldOf (handleDrop (w, event)) in
  isDraggingOver w' = false /\
  now w' = now w /\
  timers w' = cancelTimer (removeDragOverClassTimeout w) (timers w) /\
  removeDragOverClassTimeout w' = removeDragOverClassTimeout w.
Proof. drop_cases w event; auto. Qed.

Lemma handleDrop_event (w : World) (event : DragEvent) :
  eventOf (handleDrop (w, event)) = stopped event.
Proof. drop_cases w event; auto. Qed.

(** The drop handler finishes normally unless the observer itself throws:
    an observer that was not registered is skipped. *)
Lemma handleDrop_completion (w : World) (event : DragEvent) :
  completion (handleDrop (w, event)) =
  match onDrop (opts w) with
  | Some f => match f (stopped event) with
              | Some e => Throw e
              | None => Ok tt
              end
  | None => Ok tt
  end.
Proof.
  unfold handleDrop, completion, addFiles, stopped.
  run_monad. rewrite forEach_logDropError. cbn.
  destruct (fst (getDroppedFiles (dataTransfer event))) as [| file files]; cbn;
    [| destruct (uppy_addFiles _ _) as [[err |] u]; cbn ];
    destruct (onDrop (opts w)) as [f |]; cbn; auto;
    destruct (f _); reflexivity.
Qed.

(* --------------------------------------------------------------------- *)
(** *** [handleDragOver] *)

Ltac over_cases w event :=
  unfold handleDragOver, worldOf, eventOf, completion, accepts, stopped;
  run_monad; unfold hasFiles; cbn;
  destruct (existsb _ (types (dataTransfer event)));
  destruct (allowNewUpload (uppy w)); cbn;
  try (destruct (onDragOver (opts w)) as [?f |]; cbn;
       try destruct (_ : option JsError); cbn).

Lemma handleDragOver_state (w : World) (event : DragEvent) :
  let w' := worldOf (handleDragOver (w, event)) in
  isDraggingOver w' = (if accepts w event then true else isDraggingOver w) /\
  now w' = now w /\
  timers w' = cancelTimer (removeDragOverClassTimeout w) (timers w) /\
  removeDragOverClassTimeout w' = removeDragOverClassTimeout w /\
  uppy w' = uppy w /\
  opts w' = opts w.
Proof. over_cases w event; auto 10. Qed.

Lemma handleDragOver_event (w : World) (event : DragEvent) :
  eventOf (handleDragOver (w, event)) =
  with_dropEffect (if accepts w event then "copy" else "none") (stopped event).
Proof. over_cases w event; auto. Qed.

Lemma handleDragOver_trace (w : World) (event : DragEvent) :
  trace (worldOf (handleDragOver (w, event))) =
  (trace w ++
   if accepts w event then
     [EPreventDefault; EStopPropagation; ESetDropEffect "copy";
      EClearTimeout (removeDragOverClassTimeout w); ESetPluginState true]
     ++ match onDragOver (opts w) with
        | Some _ => [EObserver KDragOver (with_dropEffect "copy" (stopped event))]
        | None => []
        end
   else
     [EPreventDefault; EStopPropagation; ESetDropEffect "none";
      EClearTimeout (removeDragOverClassTimeout w)])%list.
Proof. over_cases w event; flatten_trace; reflexivity. Qed.

Lemma handleDragOver_completion (w : World) (event : DragEvent) :
  completion (handleDragOver (w, event)) =
  if accepts w event then
    match onDragOver (opts w) with
    | Some f => match f (with_dropEffect "copy" (stopped event)) with
                | Some e => Throw e
                | None => Ok tt
                end
    | None => Throw (TypeError "this.opts.onDragOver is not a function")
    end
  else Ok tt.
Proof.
  unfold handleDragOver, completion, accepts, stopped.
  run_monad. unfold hasFiles. cbn.
  destruct (existsb _ (types (dataTransfer event)));
    destruct (allowNewUpload (uppy w)); cbn; auto.
  destruct (onDragOver (opts w)) as [f |]; cbn; auto.
  destruct (f _); reflexivity.
Qed.

(* --------------------------------------------------------------------- *)
(** *** [handleDragLeave] *)

Ltac leave_cases w event :=
  unfold handleDragLeave, worldOf, eventOf, completion, stopped;
  run_monad;
  destruct (onDragLeave (opts w)) as [?f |]; cbn;
  try destruct (_ : option JsError); cbn.

Lemma handleDragLeave_state (w : World) (event : DragEvent) :
  let w' := worldOf (handleDragLeave (w, event)) in
  isDraggingOver w' = isDraggingOver w /\
  now w' = now w /\
  timers w' =
    (cancelTimer (removeDragOverClassTimeout w) (timers w)
     ++ [(nextTimerId w, now w + 50)])%list /\
  removeDragOverClassTimeout w' = Some (nextTimerId w) /\
  uppy w' = uppy w /\
  opts w' = opts w.
Proof. leave_cases w event; auto 10. Qed.

Lemma handleDragLeave_trace (w : World) (event : DragEvent) :
  trace (worldOf (handleDragLeave (w, event))) =
  (trace w ++
   [EPreventDefault; EStopPropagation;
    EClearTimeout (removeDragOverClassTimeout w);
    ESetTimeout (nextTimerId w) 50]
   ++ match onDragLeave (opts w) with
      | Some _ => [EObserver KDragLeave (stopped event)]
      | None => []
      end)%list.
Proof. leave_cases w event; flatten_trace; reflexivity. Qed.

Lemma handleDragLeave_completion (w : World) (event : DragEvent) :
  completion (handleDragLeave (w, event)) =
  match onDragLeave (opts w) with
  | Some f => match f (stopped event) with
              | Some e => Throw e
              | None => Ok tt
              end
  | None => Throw (TypeError "this.opts.onDragLeave is not a function")
  end.
Proof.
  unfold handleDragLeave, completion, stopped. run_monad.
  destruct (onDragLeave (opts w)) as [f |]; cbn; auto.
  destruct (f _); reflexivity.
Qed.

(* --------------------------------------------------------------------- *)
(** *** [onInputChange] *)

Lemma onInputChange_trace (w : World) (event : ChangeEvent) :
  trace (worldOf (onInputChange (w, event))) =
  (trace w ++
   match target_files event with
   | [] => []
   | files =>
       ELog (LogText "[DragDrop] Files selected through input") None
       :: addFiles_effects w files
   end ++ [EClearInput])%list.
Proof.
  unfold onInputChange, worldOf, addFiles_effects, addFiles. run_monad.
  destruct (target_files event) as [| file files]; cbn.
  - reflexivity.
  - destruct (uppy_addFiles _ _) as [[err |] u]; cbn; flatten_trace; reflexivity.
Qed.

Lemma onInputChange_completion (w : World) (event : ChangeEvent) :
  completion (onInputChange (w, event)) = Ok tt.
Proof.
  unfold onInputChange, completion, addFiles. run_monad.
  destruct (target_files event) as [| file files]; cbn; auto.
  destruct (uppy_addFiles _ _) as [[err |] u]; reflexivity.
Qed.

Lemma onInputChange_state (w : World) (event : ChangeEvent) :
  let w' := worldOf (onInputChange (w, event)) in
  isDraggingOver w' = isDraggingOver w /\
  now w' = now w /\
  timers w' = timers w /\
  removeDragOverClassTimeout w' = removeDragOverClassTimeout w.
Proof.
  unfold onInputChange, worldOf, addFiles. run_monad.
  destruct (target_files event) as [| file files]; cbn; auto.
  destruct (uppy_addFiles _ _) as [[err |] u]; cbn; auto.
Qed.

(* --------------------------------------------------------------------- *)
(** *** Timers and the clock *)

Lemma cancel_owned (w : World) :
  timers_owned w ->
  cancelTimer (removeDragOverClassTimeout w) (timers w) = [].
Proof.
  unfold timers_owned. intros Hown.
  destruct (removeDragOverClassTimeout w) as [h |] eqn:Hh; cbn.
  - induction (timers w) as [| t ts IH]; cbn; auto.
    assert (Ht : Some h = Some (fst t)) by (apply Hown; now left).
    injection Ht as ->. rewrite Nat.eqb_refl. cbn.
    apply IH. intros t' Hin. apply Hown. now right.
  - destruct (timers w) as [| t ts]; auto.
    specialize (Hown t (or_introl eq_refl)). discriminate.
Qed.

Lemma fired_state (due : list (nat * nat)) (w : World) :
  let w' :=
    fold_left
      (fun w t =>
         set_trace (trace w ++ [ETimerFired (fst t); ESetPluginState false])
                   (set_isDraggingOver false w))
      due w in
  isDraggingOver w' = match due with [] => isDraggingOver w | _ => false end /\
  now w' = now w /\
  timers w' = timers w /\
  removeDragOverClassTimeout w' = removeDragOverClassTimeout w /\
  uppy w' = uppy w /\
  opts w' = opts w.
Proof.
  revert w. induction due as [| t due IH]; intros w; cbn.
  - auto 10.
  - destruct (IH (set_trace (trace w ++ [ETimerFired (fst t); ESetPluginState false])
                            (set_isDraggingOver false w)))
      as (Hd & Hn & Ht & Hh & Hu & Ho).
    cbn in *. rewrite Hd, Hn, Ht, Hh, Hu, Ho.
    destruct due; auto 10.
Qed.

Lemma advance_state (ms : nat) (w : World) :
  let w' := advance ms w in
  isDraggingOver w' =
    match filter (fun t => Nat.leb (snd t) (now w + ms)) (timers w) with
    | [] => isDraggingOver w
    | _ => false
    end /\
  now w' = now w + ms /\
  timers w' = filter (fun t => negb (Nat.leb (snd t) (now w + ms))) (timers w) /\
  removeDragOverClassTimeout w' = removeDragOverClassTimeout w /\
  uppy w' = uppy w /\
  opts w' = opts w.
Proof.
  unfold advance, fireTimers. cbn.
  match goal with
  | |- context [fold_left ?g ?due ?w0] =>
      destruct (fired_state due w0) as (Hd & Hn & Ht & Hh & Hu & Ho)
  end.
  cbn in *. auto 10.
Qed.

(** With nothing pending, time passing changes nothing but the clock. *)
Lemma advance_idle_timers (ms : nat) (w : World) :
  timers w = [] ->
  isDraggingOver (advance ms w) = isDraggingOver w /\ timers (advance ms w) = [].
Proof.
  intros Ht. destruct (advance_state ms w) as (Hd & _ & Ht' & _).
  rewrite Hd, Ht', Ht. cbn. auto.
Qed.

(* --------------------------------------------------------------------- *)
(** *** The timer invariant along every run *)

Lemma timers_owned_new (core : UppyState) (o : Options) :
  timers_owned (install (new_DragDrop core o)).
Proof. intros t []. Qed.

Lemma timers_owned_step (i : Input) (w : World) :
  timers_owned w -> timers_owned (step i w).
Proof.
  intros Hown. pose proof (cancel_owned w Hown) as Hc.
  destruct i as [event | event | event | event | ms]; cbn [step]; intros t Hin.
  - destruct (handleDragOver_state w event) as (_ & _ & Ht & _).
    unfold worldOf in Ht. rewrite Ht, Hc in Hin. destruct Hin.
  - destruct (handleDragLeave_state w event) as (_ & _ & Ht & Hh & _).
    unfold worldOf in Ht, Hh. rewrite Ht, Hc in Hin. rewrite Hh.
    destruct Hin as [<- | []]. reflexivity.
  - destruct (handleDrop_state w event) as (_ & _ & Ht & _).
    unfold worldOf in Ht. rewrite Ht, Hc in Hin. destruct Hin.
  - destruct (onInputChange_state w event) as (_ & _ & Ht & Hh).
    unfold worldOf in Ht, Hh. rewrite Ht in Hin. rewrite Hh. now apply Hown.
  - destruct (advance_state ms w) as (_ & _ & Ht & Hh & _).
    rewrite Ht in Hin. rewrite Hh. apply filter_In in Hin. now apply Hown.
Qed.

Lemma timers_owned_run (inputs : list Input) (w : World) :
  timers_owned w -> timers_owned (run inputs w).
Proof.
  revert w. induction inputs as [| i inputs IH]; intros w Hown; cbn; auto.
  apply IH, timers_owned_step, Hown.
Qed.

Lemma leave_then_wait (w : World) (event : DragEvent) (ms : nat) :
  timers_owned w ->
  let w' := advance ms (step (DragLeave event) w) in
  isDraggingOver w' = (if Nat.ltb ms 50 then isDraggingOver w else false) /\
  (50 <= ms -> timers w' = []).
Proof.
  intros Hown. cbn [step].
  pose proof (handleDragLeave_state w event) as H.
  unfold worldOf in H. cbn zeta in H.
  remember (fst (snd (handleDragLeave (w, event)))) as w1 eqn:Hw1.
  destruct H as (Hd & Hn & Ht & _).
  rewrite (cancel_owned w Hown) in Ht. cbn [app] in Ht.
  destruct (advance_state ms w1) as (Hd' & _ & Ht' & _).
  cbn zeta. rewrite Hd', Ht', Ht, Hn, Hd. cbn [filter snd].
  destruct (Nat.leb_spec (now w + 50) (now w + ms));
    destruct (Nat.ltb_spec ms 50); cbn [negb]; try lia; split; auto; lia.
Qed.

Lemma over_then_wait (w : World) (event : DragEvent) (ms : nat) :
  timers_owned w ->
  let w' := advance ms (step (DragOver event) w) in
  isDraggingOver w' = (if accepts w event then true else isDraggingOver w) /\
  timers w' = [].
Proof.
  intros Hown. cbn [step].
  pose proof (handleDragOver_state w event) as H.
  unfold worldOf in H. cbn zeta in H.
  remember (fst (snd (handleDragOver (w, event)))) as w1 eqn:Hw1.
  destruct H as (Hd & _ & Ht & _).
  rewrite (cancel_owned w Hown) in Ht.
  destruct (advance_idle_timers ms w1 Ht) as (Hd' & Ht').
  cbn zeta. rewrite Hd', Hd. auto.
Qed.



Lemma step_DragLeave_then_Wait (w : World) (event : DragEvent) (ms : nat) :
  timers_owned w ->
  isDraggingOver (step (DragLeave event) w) = isDraggingOver w /\
  isDraggingOver (step (Wait ms) (step (DragLeave event) w))
    = (if Nat.ltb ms 50 then isDraggingOver w else false).
Proof.
  intros Hown. split.
  - exact (proj1 (handleDragLeave_state w event)).
  - exact (proj1 (leave_then_wait w event ms Hown)).
Qed.

(* ===================================================================== *)
(** ** The claims *)

(** C1, amended.  [handleDrop] reads neither the payload's type manifest
    nor the allow-new-uploads flag.  What it submits is decided by what
    [getDroppedFiles] resolves: nothing when that list is empty, otherwise
    one batch holding one descriptor per resolved file, in order. *)
Theorem handleDrop_submits_what_resolves (w : World) (event : DragEvent) :
  submissions (emitted w (worldOf (handleDrop (w, event)))) =
  match fst (getDroppedFiles (dataTransfer event)) with
  | [] => []
  | files => [map (descriptorOf (this_id w)) files]
  end.
Proof.
  rewrite handleDrop_emitted. unfold drop_effects. cbn.
  rewrite submissions_app, submissions_logs, submissions_app. cbn.
  destruct (fst (getDroppedFiles (dataTransfer event))) as [| file files];
    destruct (onDrop (opts w)); cbn; try reflexivity;
    destruct (fst (uppy_addFiles _ _)); reflexivity.
Qed.

(** C2, as the code behaves.  With no [onDragOver] / [onDragLeave] callback
    in the options, [handleDragLeave] always ends in a TypeError and so does
    [handleDragOver] whenever it accepts the drag: the optional chain sits
    on [this.opts], not on the callback. *)
Theorem unregistered_observer_raises (w : World) (event : DragEvent) :
  onDragOver (opts w) = None ->
  onDragLeave (opts w) = None ->
  completion (handleDragLeave (w, event)) =
    Throw (TypeError "this.opts.onDragLeave is not a function") /\
  completion (handleDragOver (w, event)) =
    (if accepts w event
     then Throw (TypeError "this.opts.onDragOver is not a function")
     else Ok tt).
Proof.
  intros Hover Hleave.
  rewrite handleDragLeave_completion, handleDragOver_completion, Hover, Hleave.
  auto.
Qed.

(** C3.  A drag-over sets [isDraggingOver] to true and the drop effect to
    "copy" exactly when the payload advertises files and new uploads are
    allowed; otherwise it leaves [isDraggingOver] as it was and sets the
    drop effect to "none".  The drop effect is never "move". *)
Theorem handleDragOver_gate (w : World) (event : DragEvent) :
  let r := handleDragOver (w, event) in
  accepts w event = hasFiles event && allowNewUpload (uppy w) /\
  isDraggingOver (worldOf r) = (if accepts w event then true else isDraggingOver w) /\
  dropEffect (dataTransfer (eventOf r)) = (if accepts w event then "copy" else "none") /\
  (dropEffect (dataTransfer (eventOf r)) = "copy" <-> accepts w event = true) /\
  dropEffect (dataTransfer (eventOf r)) <> "move" /\
  ~ In (ESetDropEffect "move") (emitted w (worldOf r)).
Proof.
  cbn zeta.
  destruct (handleDragOver_state w event) as (Hd & _).
  rewrite Hd, handleDragOver_event.
  rewrite (emitted_app _ _ _ (handleDragOver_trace w event)).
  destruct (accepts w event) eqn:Hacc; cbn;
    repeat split; auto; try discriminate; try (intros _; reflexivity).
  - destruct (onDragOver (opts w)); cbn; intuition discriminate.
  - intuition discriminate.
Qed.

(** C4, amended.  For each kind of event, with the observer of that kind
    registered (the other two may be missing): an accepted drag-over and
    every drop call their observer after the handler's [setPluginState],
    passing the event object the handler was given (by then with
    [preventDefault] and [stopPropagation] called on it); a rejected
    drag-over calls no observer; a drag-leave calls its observer right
    after scheduling the 50 ms timer, while [isDraggingOver] is still
    unchanged, and the state update happens when that timer fires. *)
Theorem observers_in_order (w : World) (event : DragEvent) :
  (forall f, onDragOver (opts w) = Some f ->
     emitted w (worldOf (handleDragOver (w, event))) =
       (if accepts w event then
          [EPreventDefault; EStopPropagation; ESetDropEffect "copy";
           EClearTimeout (removeDragOverClassTimeout w);
           ESetPluginState true;
           EObserver KDragOver (with_dropEffect "copy" (stopped event))]
        else
          [EPreventDefault; EStopPropagation; ESetDropEffect "none";
           EClearTimeout (removeDragOverClassTimeout w)])) /\
  (forall f, onDrop (opts w) = Some f ->
     exists acquisition,
       emitted w (worldOf (handleDrop (w, event))) =
         ([EPreventDefault; EStopPropagation;
           EClearTimeout (removeDragOverClassTimeout w);
           ESetPluginState false]
          ++ acquisition ++ [EObserver KDrop (stopped event)])%list) /\
  (forall f, onDragLeave (opts w) = Some f ->
     emitted w (worldOf (handleDragLeave (w, event))) =
       [EPreventDefault; EStopPropagation;
        EClearTimeout (removeDragOverClassTimeout w);
        ESetTimeout (nextTimerId w) 50;
        EObserver KDragLeave (stopped event)] /\
     isDraggingOver (worldOf (handleDragLeave (w, event))) = isDraggingOver w /\
     (timers_owned w ->
      isDraggingOver (run [DragLeave event; Wait 50] w) = false)).
Proof.
  split; [| split].
  - intros f Hover.
    rewrite (emitted_app _ _ _ (handleDragOver_trace w event)), Hover.
    destruct (accepts w event); reflexivity.
  - intros f Hdrop. rewrite handleDrop_emitted.
    unfold drop_effects. rewrite Hdrop. cbn [app].
    exists (EGetDroppedFiles (dataTransfer event)
            :: map (fun e => ELog (LogError e) (Some "error"))
                   (snd (getDroppedFiles (dataTransfer event)))
            ++ match fst (getDroppedFiles (dataTransfer event)) with
               | [] => []
               | files =>
                   ELog (LogText "[DragDrop] Files dropped") None
                   :: addFiles_effects w files
               end)%list.
    cbn [app]. now rewrite <- app_assoc.
  - intros f Hleave.
    rewrite (emitted_app _ _ _ (handleDragLeave_trace w event)), Hleave.
    split; [reflexivity |]. split; [apply handleDragLeave_state |].
    intros Hown. cbn [run fold_left].
    exact (proj1 (leave_then_wait w event 50 Hown)).
Qed.

(** C5.  A drop cancels the pending leave timer and sets [isDraggingOver]
    to false at once, with no timer scheduled and the clock where it was;
    these come first in the handler, before [getDroppedFiles] is started
    and before anything is submitted. *)
Theorem handleDrop_resets_first (w : World) (event : DragEvent) :
  let w' := worldOf (handleDrop (w, event)) in
  (exists acquisition,
     emitted w w' =
       ([EPreventDefault; EStopPropagation;
         EClearTimeout (removeDragOverClassTimeout w);
         ESetPluginState false;
         EGetDroppedFiles (dataTransfer event)] ++ acquisition)%list /\
     submissions acquisition = submissions (emitted w w') /\
     (forall dt, ~ In (EGetDroppedFiles dt) acquisition) /\
     (forall h delay, ~ In (ESetTimeout h delay) (emitted w w'))) /\
  isDraggingOver w' = false /\
  now w' = now w /\
  timers w' = cancelTimer (removeDragOverClassTimeout w) (timers w) /\
  (forall h due, removeDragOverClassTimeout w = Some h -> ~ In (h, due) (timers w')) /\
  (timers_owned w -> timers w' = []).
Proof.
  cbn zeta. rewrite handleDrop_emitted.
  destruct (handleDrop_state w event) as (Hd & Hn & Ht & _).
  unfold worldOf in *. rewrite Hd, Hn, Ht.
  assert (Hacq : forall x,
            In x (map (fun e => ELog (LogError e) (Some "error"))
                      (snd (getDroppedFiles (dataTransfer event)))
                  ++ match fst (getDroppedFiles (dataTransfer event)) with
                     | [] => []
                     | files =>
                         ELog (LogText "[DragDrop] Files dropped") None
                         :: addFiles_effects w files
                     end
                  ++ match onDrop (opts w) with
                     | Some _ => [EObserver KDrop (stopped event)]
                     | None => []
                     end)%list ->
            (forall dt, x <> EGetDroppedFiles dt) /\
            (forall h delay, x <> ESetTimeout h delay)).
  { intros x Hin. apply in_app_or in Hin as [Hin | Hin].
    - apply in_map_iff in Hin as (e & <- & _). split; discriminate.
    - apply in_app_or in Hin as [Hin | Hin].
      + destruct (fst (getDroppedFiles (dataTransfer event))); [destruct Hin |].
        unfold addFiles_effects in Hin.
        destruct (fst (uppy_addFiles _ _)); cbn in Hin;
          intuition (subst; discriminate).
      + destruct (onDrop (opts w)); cbn in Hin; intuition (subst; discriminate). }
  repeat split; auto.
  - eexists. unfold drop_effects. cbn [app]. repeat split.
    + intros dt Hin. apply Hacq in Hin as (H1 & _). now apply (H1 dt).
    + intros h delay Hin. cbn in Hin.
      destruct Hin as [Hin | [Hin | [Hin | [Hin | [Hin | Hin]]]]];
        try discriminate.
      apply Hacq in Hin as (_ & H2). now apply (H2 h delay).
  - intros h due Hh Hin. rewrite Hh in Hin. cbn in Hin.
    apply filter_In in Hin as (_ & Hneq). cbn in Hneq.
    now rewrite Nat.eqb_refl in Hneq.
  - apply cancel_owned.
Qed.


(** C7, amended.  The builder copies a non-empty [relativePath] unchanged
    and yields [null] exactly when the handle's [relativePath] is missing,
    [null] or the empty string; name, type and the handle itself are
    carried over as they are, one descriptor per handle. *)
Theorem descriptorOf_relativePath (source : string) (file : File.t) :
  let d := descriptorOf source file in
  Descriptor.relativePath (Descriptor.meta d) =
    match File.relativePath file with
    | JsString s => if s =? "" then JsNull else JsString s
    | _ => JsNull
    end /\
  (Descriptor.relativePath (Descriptor.meta d) = JsNull <->
     File.relativePath file = JsUndefined \/
     File.relativePath file = JsNull \/
     File.relativePath file = JsString "") /\
  Descriptor.source d = source /\
  Descriptor.name d = File.name file /\
  Descriptor.type d = File.type file /\
  Descriptor.data d = file /\
  (forall files, length (map (descriptorOf source) files) = length files).
Proof.
  cbn. unfold js_or, truthy.
  destruct (File.relativePath file) as [| | s]; cbn.
  - repeat split; auto using length_map.
  - repeat split; auto using length_map.
  - destruct (String.eqb_spec s "") as [-> | Hne]; cbn.
    + repeat split; auto using length_map.
    + repeat split; auto using length_map; try discriminate.
      intros [H | [H | H]]; try discriminate. now injection H.
Qed.

(** C8.  When the orchestrator rejects a batch, [addFiles] catches the
    error, hands it to [uppy.log] and finishes normally.  Neither caller
    sees the rejection: the picker handler always finishes normally, and
    the drop handler ends in an error only if the [onDrop] observer itself
    throws. *)
Theorem addFiles_catches_rejection
        {E} (w : World) (event : E) (files : list File.t) (err : JsError) :
  fst (uppy_addFiles (map (descriptorOf (this_id w)) files) (uppy w)) = Some err ->
  completion (addFiles files (w, event)) = Ok tt /\
  emitted w (worldOf (addFiles files (w, event))) =
    [EAddFiles (map (descriptorOf (this_id w)) files); ELog (LogError err) None] /\
  (forall change : ChangeEvent,
     target_files change = files ->
     completion (onInputChange (w, change)) = Ok tt /\
     (files <> [] ->
      In (ELog (LogError err) None)
         (emitted w (worldOf (onInputChange (w, change)))))) /\
  (forall drop : DragEvent,
     fst (getDroppedFiles (dataTransfer drop)) = files ->
     completion (handleDrop (w, drop)) =
       match onDrop (opts w) with
       | Some f => match f (stopped drop) with
                   | Some e => Throw e
                   | None => Ok tt
                   end
       | None => Ok tt
       end /\
     (files <> [] ->
      In (ELog (LogError err) None)
         (emitted w (worldOf (handleDrop (w, drop)))))).
Proof.
  intros Hrej. rewrite addFiles_run.
  unfold completion at 1. unfold worldOf at 1. cbn [fst snd].
  split; [reflexivity |]. split.
  { apply emitted_app. unfold after_addFiles, addFiles_effects. cbn.
    now rewrite Hrej. }
  split.
  - intros change Hfiles. split; [apply onInputChange_completion |].
    intros Hne. rewrite (emitted_app _ _ _ (onInputChange_trace w change)).
    rewrite Hfiles. destruct files as [| file files]; [congruence |].
    unfold addFiles_effects. rewrite Hrej. cbn. auto.
  - intros drop Hfiles. split; [apply handleDrop_completion |].
    intros Hne. rewrite handleDrop_emitted. unfold drop_effects.
    rewrite Hfiles. destruct files as [| file files]; [congruence |].
    unfold addFiles_effects. rewrite Hrej.
    apply in_or_app. right. apply in_or_app. right.
    apply in_or_app. left. cbn. auto.
Qed.

(** C9.  A change event with at least one file always leads to one call of
    the orchestrator's [addFiles] with a descriptor per selected file,
    whatever the allow-new-uploads flag says: the handler never reads it. *)
Theorem onInputChange_submits_unconditionally (w : World) (event : ChangeEvent) :
  target_files event <> [] ->
  submissions (emitted w (worldOf (onInputChange (w, event)))) =
    [map (descriptorOf (this_id w)) (target_files event)].
Proof.
  intros Hne.
  rewrite (emitted_app _ _ _ (onInputChange_trace w event)).
  destruct (target_files event) as [| file files] eqn:Hfiles; [congruence |].
  rewrite submissions_app. cbn [submissions].
  rewrite submissions_addFiles. reflexivity.
Qed.

(** C10.  A rejected drag-over clears the pending leave timer and leaves
    [isDraggingOver] as it was, so nothing is scheduled any more: however
    long one waits afterwards, a hovering plugin stays hovering. *)
Theorem rejected_dragOver_strands_hover (w : World) (event : DragEvent) (ms : nat) :
  timers_owned w ->
  accepts w event = false ->
  let w' := step (DragOver event) w in
  emitted w w' =
    [EPreventDefault; EStopPropagation; ESetDropEffect "none";
     EClearTimeout (removeDragOverClassTimeout w)] /\
  timers w' = [] /\
  isDraggingOver w' = isDraggingOver w /\
  isDraggingOver (advance ms w') = isDraggingOver w.
Proof.
  intros Hown Hrej.
  pose proof (over_then_wait w event ms Hown) as Hwait. cbn zeta in Hwait.
  pose proof (handleDragOver_state w event) as Hs.
  pose proof (handleDragOver_trace w event) as Htr.
  unfold worldOf in Hs, Htr. cbn zeta in Hs. cbn [step] in *.
  rewrite Hrej in *.
  remember (fst (snd (handleDragOver (w, event)))) as w1 eqn:Hw1.
  destruct Hs as (Hd & _ & Ht & _). destruct Hwait as (Hd' & _).
  cbn zeta. repeat split; auto.
  - now apply emitted_app.
  - rewrite Ht. now apply cancel_owned.
Qed.

End Proofs.

(* ===================================================================== *)
(** ** Concrete runs *)

(** C1, as stated, fails: with new uploads disallowed, dropping one file
    still builds its descriptor and hands it to the orchestrator. *)
Lemma drop_while_disallowed_submits :
  ~ (hasFiles fileDrag = false \/
     allowNewUpload (uppy (sampleWorld false noObservers)) = false ->
     submissions
       (emitted (sampleWorld false noObservers)
                (worldOf (handleDrop (sampleWorld false noObservers, fileDrag))))
     = []).
Proof.
  intros H. specialize (H (or_intror eq_refl)).
  vm_compute in H. discriminate H.
Qed.

Lemma unregistered_observer_raises_witness :
  onDragOver (opts (sampleWorld true noObservers)) = None /\
  onDragLeave (opts (sampleWorld true noObservers)) = None /\
  completion (handleDragLeave (sampleWorld true noObservers, fileDrag)) =
    Throw (TypeError "this.opts.onDragLeave is not a function") /\
  completion (handleDragOver (sampleWorld true noObservers, fileDrag)) =
    Throw (TypeError "this.opts.onDragOver is not a function").
Proof.
  split; [reflexivity |]. split; [reflexivity |].
  exact (unregistered_observer_raises
           (sampleWorld true noObservers) fileDrag eq_refl eq_refl).
Defined.

(** C4, as stated, fails for drag-leave: the observer is called, no
    [setPluginState] comes before it, and the plugin is still hovering
    when the handler is done. *)
Lemma dragLeave_observer_before_update :
  In (EObserver KDragLeave (stopped fileLeave))
     (emitted hoveringWorld (worldOf (handleDragLeave (hoveringWorld, fileLeave)))) /\
  isDraggingOver (worldOf (handleDragLeave (hoveringWorld, fileLeave))) = true /\
  ~ (exists before b between event after,
       emitted hoveringWorld (worldOf (handleDragLeave (hoveringWorld, fileLeave))) =
       (before ++ [ESetPluginState b] ++ between
        ++ [EObserver KDragLeave event] ++ after)%list).
Proof.
  split; [vm_compute; tauto |]. split; [reflexivity |].
  intros (before & b & between & event & after & H).
  assert (Hin : In (ESetPluginState b)
                   (emitted hoveringWorld
                            (worldOf (handleDragLeave (hoveringWorld, fileLeave))))).
  { rewrite H. apply in_or_app. right. now left. }
  vm_compute in Hin. intuition discriminate.
Qed.

Lemma observers_in_order_witness :
  onDragOver (opts (sampleWorld true onlyOnDrop)) = None /\
  onDragLeave (opts (sampleWorld true onlyOnDrop)) = None /\
  (exists acquisition,
     emitted (sampleWorld true onlyOnDrop)
             (worldOf (handleDrop (sampleWorld true onlyOnDrop, fileDrag))) =
       ([EPreventDefault; EStopPropagation;
         EClearTimeout (removeDragOverClassTimeout (sampleWorld true onlyOnDrop));
         ESetPluginState false]
        ++ acquisition ++ [EObserver KDrop (stopped fileDrag)])%list) /\
  emitted (sampleWorld true onlyOnDragLeave)
          (worldOf (handleDragLeave (sampleWorld true onlyOnDragLeave, fileLeave))) =
    [EPreventDefault; EStopPropagation;
     EClearTimeout (removeDragOverClassTimeout (sampleWorld true onlyOnDragLeave));
     ESetTimeout (nextTimerId (sampleWorld true onlyOnDragLeave)) 50;
     EObserver KDragLeave (stopped fileLeave)] /\
  defaultPrevented (stopped fileLeave) = false.
Proof.
  split; [reflexivity |]. split; [reflexivity |]. split.
  - exact (proj1 (proj2 (observers_in_order (sampleWorld true onlyOnDrop) fileDrag))
             quietObserver eq_refl).
  - split; [| reflexivity].
    exact (proj1 (proj2 (proj2 (observers_in_order
                                  (sampleWorld true onlyOnDragLeave) fileLeave))
                        quietObserver eq_refl)).
Defined.


(** C7, as stated, fails: an empty [relativePath] is not preserved, the
    descriptor gets [null] although the handle carried a path value. *)
Lemma empty_relativePath_becomes_null :
  File.relativePath emptyPathFile = JsString "" /\
  Descriptor.relativePath (Descriptor.meta (descriptorOf "DragDrop" emptyPathFile))
    = JsNull /\
  ~ (Descriptor.relativePath (Descriptor.meta (descriptorOf "DragDrop" emptyPathFile))
     = File.relativePath emptyPathFile).
Proof.
  split; [reflexivity |]. split; [reflexivity |].
  cbn. discriminate.
Qed.

Lemma addFiles_catches_rejection_witness :
  fst (uppy_addFiles
         (map (descriptorOf (this_id (sampleWorld false noObservers))) [sampleFile])
         (uppy (sampleWorld false noObservers)))
    = Some (mkError "RestrictionError" "Cannot add more files") /\
  completion (addFiles [sampleFile] (sampleWorld false noObservers, pickerChange))
    = Ok tt /\
  emitted (sampleWorld false noObservers)
          (worldOf (addFiles [sampleFile]
                             (sampleWorld false noObservers, pickerChange))) =
    [EAddFiles (map (descriptorOf (this_id (sampleWorld false noObservers)))
                    [sampleFile]);
     ELog (LogError (mkError "RestrictionError" "Cannot add more files")) None].
Proof.
  split; [reflexivity |].
  destruct (addFiles_catches_rejection
              (sampleWorld false noObservers) pickerChange [sampleFile]
              (mkError "RestrictionError" "Cannot add more files") eq_refl)
    as (Hok & Hlog & _).
  split; [exact Hok | exact Hlog].
Defined.

Lemma onInputChange_submits_unconditionally_witness :
  allowNewUpload (uppy (sampleWorld false noObservers)) = false /\
  target_files pickerChange <> [] /\
  submissions
    (emitted (sampleWorld false noObservers)
             (worldOf (onInputChange (sampleWorld false noObservers, pickerChange))))
  = [map (descriptorOf (this_id (sampleWorld false noObservers)))
         (target_files pickerChange)].
Proof.
  split; [reflexivity |].
  assert (Hne : target_files pickerChange <> []) by (cbn; discriminate).
  split; [exact Hne |].
  exact (onInputChange_submits_unconditionally
           (sampleWorld false noObservers) pickerChange Hne).
Defined.

Lemma rejected_dragOver_strands_hover_witness :
  timers_owned leavingWorld /\
  timers leavingWorld = [(0, 50)] /\
  isDraggingOver leavingWorld = true /\
  accepts leavingWorld textDrag = false /\
  timers (step (DragOver textDrag) leavingWorld) = [] /\
  isDraggingOver (advance 1000 (step (DragOver textDrag) leavingWorld)) = true.
Proof.
  assert (Hown : timers_owned leavingWorld)
    by (apply timers_owned_run, timers_owned_new).
  split; [exact Hown |]. split; [reflexivity |]. split; [reflexivity |].
  split; [reflexivity |].
  destruct (rejected_dragOver_strands_hover leavingWorld textDrag 1000 Hown eq_refl)
    as (_ & Htimers & _ & Hlater).
  split; [exact Htimers | exact Hlater].
Defined.

(* ===================================================================== *)
(** ** More about the handlers *)

Section HandlerFacts.
Context {C : Collaborators}.

Ltac unfold_monad :=
  unfold preventDefault, stopPropagation, setDropEffect, clearTimeout,
    setTimeout, setPluginState, uppy_log, call_uppy_addFiles, callObserver,
    emit, modifyWorld, modifyEvent, getWorld, getEvent, tryCatch, throw,
    bind, ret;
  cbn.

Lemma handleDragLeave_event (w : World) (event : DragEvent) :
  eventOf (handleDragLeave (w, event)) = stopped event.
Proof.
  unfold handleDragLeave, eventOf, stopped. unfold_monad.
  destruct (onDragLeave (opts w)) as [f |]; cbn; auto.
  destruct (f _); reflexivity.
Qed.

Lemma handleDragOver_identity (w : World) (event : DragEvent) :
  this_id (worldOf (handleDragOver (w, event))) = this_id w.
Proof.
  unfold handleDragOver, worldOf. unfold_monad. unfold hasFiles. cbn.
  destruct (existsb _ (types (dataTransfer event)));
    destruct (allowNewUpload (uppy w)); cbn; auto;
    destruct (onDragOver (opts w)) as [f |]; cbn; auto;
    destruct (f _); reflexivity.
Qed.

Lemma handleDragLeave_identity (w : World) (event : DragEvent) :
  this_id (worldOf (handleDragLeave (w, event))) = this_id w.
Proof.
  unfold handleDragLeave, worldOf. unfold_monad.
  destruct (onDragLeave (opts w)) as [f |]; cbn; auto.
  destruct (f _); reflexivity.
Qed.

Lemma handleDrop_identity (w : World) (event : DragEvent) :
  this_id (worldOf (handleDrop (w, event))) = this_id w.
Proof.
  unfold handleDrop, worldOf, addFiles. unfold_monad.
  rewrite forEach_logDropError. cbn.
  destruct (fst (getDroppedFiles (dataTransfer event))) as [| file files]; cbn;
    [| destruct (uppy_addFiles _ _) as [[err |] u]; cbn ];
    destruct (onDrop (opts w)) as [f |]; cbn; auto;
    destruct (f _); reflexivity.
Qed.

Lemma onInputChange_identity (w : World) (event : ChangeEvent) :
  this_id (worldOf (onInputChange (w, event))) = this_id w /\
  eventOf (onInputChange (w, event)) = with_target_value JsNull event /\
  (target_files event = [] -> uppy (worldOf (onInputChange (w, event))) = uppy w).
Proof.
  unfold onInputChange, worldOf, eventOf, addFiles. unfold_monad.
  destruct (target_files event) as [| file files]; cbn; auto.
  destruct (uppy_addFiles _ _) as [[err |] u]; cbn; repeat split; auto;
    discriminate.
Qed.

(** What the timers that go off add to the record. *)
Lemma fired_trace (due : list (nat * nat)) (w : World) :
  let w' :=
    fold_left
      (fun w t =>
         set_trace (trace w ++ [ETimerFired (fst t); ESetPluginState false])
                   (set_isDraggingOver false w))
      due w in
  trace w' =
    (trace w
     ++ flat_map (fun t => [ETimerFired (fst t); ESetPluginState false]) due)%list /\
  this_id w' = this_id w.
Proof.
  revert w. induction due as [| t due IH]; intros w; cbn.
  - now rewrite app_nil_r.
  - destruct (IH (set_trace (trace w ++ [ETimerFired (fst t); ESetPluginState false])
                            (set_isDraggingOver false w))) as (Ht & Hi).
    cbn in *. rewrite Ht, Hi. rewrite <- app_assoc. auto.
Qed.

Lemma advance_trace (ms : nat) (w : World) :
  trace (advance ms w) =
    (trace w
     ++ flat_map (fun t => [ETimerFired (fst t); ESetPluginState false])
          (filter (fun t => Nat.leb (snd t) (now w + ms)) (timers w)))%list /\
  this_id (advance ms w) = this_id w.
Proof.
  unfold advance, fireTimers. cbn.
  match goal with
  | |- context [fold_left ?g ?due ?w0] =>
      destruct (fired_trace due w0) as (Ht & Hi)
  end.
  cbn in *. auto.
Qed.

Lemma submissions_fired (due : list (nat * nat)) :
  submissions (flat_map (fun t => [ETimerFired (fst t); ESetPluginState false]) due)
  = [].
Proof. induction due; cbn; auto. Qed.

Lemma submissions_drop_effects (w : World) (event : DragEvent) :
  submissions (drop_effects w event) =
  match fst (getDroppedFiles (dataTransfer event)) with
  | [] => []
  | files => [map (descriptorOf (this_id w)) files]
  end.
Proof.
  unfold drop_effects. cbn.
  rewrite submissions_app, submissions_logs, submissions_app. cbn.
  destruct (fst (getDroppedFiles (dataTransfer event))) as [| file files];
    destruct (onDrop (opts w)); cbn; try reflexivity;
    destruct (fst (uppy_addFiles _ _)); reflexivity.
Qed.

Lemma map_data_descriptorOf (source : string) (files : list File.t) :
  map Descriptor.data (map (descriptorOf source) files) = files.
Proof. induction files as [| f files IH]; cbn; congruence. Qed.

Lemma sources_descriptorOf (source : string) (files : list File.t) :
  Forall (fun d => Descriptor.source d = source) (map (descriptorOf source) files).
Proof. induction files; cbn; constructor; auto. Qed.

End HandlerFacts.

Section HandlerProperties.
Context {C : Collaborators}.

Ltac unfold_monad' :=
  unfold preventDefault, stopPropagation, setDropEffect, clearTimeout,
    setTimeout, setPluginState, uppy_log, call_uppy_addFiles, callObserver,
    emit, modifyWorld, modifyEvent, getWorld, getEvent, tryCatch, throw,
    bind, ret;
  cbn.

Lemma timers_owned_reachable (core : UppyState) (o : Options) (inputs : list Input) :
  timers_owned (run inputs (install (new_DragDrop core o))).
Proof. apply timers_owned_run, timers_owned_new. Qed.

Lemma debounce_invariant_owned (w : World) :
  debounce_invariant w -> timers_owned w.
Proof.
  intros [Hnone | (h & due & Hone & Hh & _)] t Hin.
  - rewrite Hnone in Hin. destruct Hin.
  - rewrite Hone in Hin. destruct Hin as [<- | []]. exact Hh.
Qed.

Lemma debounce_invariant_step (i : Input) (w : World) :
  debounce_invariant w -> debounce_invariant (step i w).
Proof.
  intros Hinv. pose proof (debounce_invariant_owned w Hinv) as Hown.
  pose proof (cancel_owned w Hown) as Hc.
  destruct i as [event | event | event | event | ms]; cbn [step].
  - left. destruct (handleDragOver_state w event) as (_ & _ & Ht & _).
    etransitivity; [exact Ht | exact Hc].
  - right. destruct (handleDragLeave_state w event) as (_ & Hn & Ht & Hh & _).
    exists (nextTimerId w), (now w + 50). unfold worldOf in *.
    rewrite Ht, Hc, Hh, Hn. cbn. repeat split; lia.
  - left. destruct (handleDrop_state w event) as (_ & _ & Ht & _).
    etransitivity; [exact Ht | exact Hc].
  - destruct (onInputChange_state w event) as (_ & Hn & Ht & Hh).
    unfold worldOf in *. unfold debounce_invariant. rewrite Hn, Ht, Hh.
    exact Hinv.
  - destruct (advance_state ms w) as (_ & Hn & Ht & Hh & _).
    unfold debounce_invariant. rewrite Hn, Ht, Hh.
    destruct Hinv as [Hnone | (h & due & Hone & Hhandle & Hlo & Hhi)].
    + left. now rewrite Hnone.
    + rewrite Hone. cbn.
      destruct (Nat.leb_spec due (now w + ms)); cbn.
      * now left.
      * right. exists h, due. repeat split; auto; lia.
Qed.

Lemma debounce_invariant_run (inputs : list Input) (w : World) :
  debounce_invariant w -> debounce_invariant (run inputs w).
Proof.
  revert w. induction inputs as [| i inputs IH]; intros w Hw; cbn; auto.
  apply IH, debounce_invariant_step, Hw.
Qed.

Lemma advance_settled_trace (ms : nat) (w : World) :
  timers w = [] -> trace (advance ms w) = trace w.
Proof.
  intros Hnone. destruct (advance_trace ms w) as (Ht & _).
  rewrite Ht, Hnone. cbn. now rewrite app_nil_r.
Qed.

(** X1.  Every drag-over, drag-leave and drop handler starts by calling
    [preventDefault] and [stopPropagation], whatever it decides afterwards
    and even when it ends in an error.  The event comes back with its
    propagation stopped and with its default action prevented if it is
    cancelable (a browser's dragover and drop are; a dragleave is not and
    stays as it was); the payload is untouched. *)
Theorem drag_events_always_suppressed (w : World) (event : DragEvent) :
  Forall
    (fun r : Result unit * (World * DragEvent) =>
       (exists rest,
          emitted w (worldOf r) = EPreventDefault :: EStopPropagation :: rest) /\
       defaultPrevented (eventOf r) = defaultPrevented event || cancelable event /\
       propagationStopped (eventOf r) = true /\
       cancelable (eventOf r) = cancelable event /\
       types (dataTransfer (eventOf r)) = types (dataTransfer event) /\
       items (dataTransfer (eventOf r)) = items (dataTransfer event))
    [handleDragOver (w, event); handleDragLeave (w, event); handleDrop (w, event)].
Proof.
  repeat apply Forall_cons; try apply Forall_nil.
  - rewrite handleDragOver_event.
    rewrite (emitted_app _ _ _ (handleDragOver_trace w event)).
    split; [| repeat split].
    destruct (accepts w event); cbn [app]; eauto.
  - rewrite handleDragLeave_event.
    rewrite (emitted_app _ _ _ (handleDragLeave_trace w event)).
    split; [| repeat split]. cbn [app]. eauto.
  - rewrite handleDrop_event, handleDrop_emitted.
    split; [| repeat split]. unfold drop_effects. cbn [app]. eauto.
Qed.

(** X2.  Along every run of a freshly installed plugin at most one timer
    is pending; it is the one [removeDragOverClassTimeout] names and it is
    due within the next 50 ms. *)
Theorem at_most_one_pending_timer
        (core : UppyState) (o : Options) (inputs : list Input) :
  debounce_invariant (run inputs (install (new_DragDrop core o))) /\
  length (timers (run inputs (install (new_DragDrop core o)))) <= 1.
Proof.
  assert (Hinv : debounce_invariant (run inputs (install (new_DragDrop core o)))).
  { apply debounce_invariant_run. now left. }
  split; [exact Hinv |].
  destruct Hinv as [-> | (h & due & -> & _)]; cbn; lia.
Qed.

(** X3.  The delay counts from the latest drag-leave: after two leaves in
    a row the plugin is still hovering exactly when it was hovering before,
    the second leave came less than 50 ms after the first, and less than
    50 ms have passed since the second. *)
Theorem leave_restarts_debounce
        (core : UppyState) (o : Options) (inputs : list Input)
        (first second : DragEvent) (d1 d2 : nat) :
  let w := run inputs (install (new_DragDrop core o)) in
  isDraggingOver (run [DragLeave first; Wait d1; DragLeave second; Wait d2] w) =
    isDraggingOver w && Nat.ltb d1 50 && Nat.ltb d2 50.
Proof.
  cbn zeta. cbn [run fold_left].
  pose proof (timers_owned_reachable core o inputs) as O0.
  revert O0. generalize (run inputs (install (new_DragDrop core o))) as w.
  intros w O0.
  pose proof (step_DragLeave_then_Wait w first d1 O0) as (_ & H2).
  pose proof (timers_owned_step (Wait d1) _
                (timers_owned_step (DragLeave first) w O0)) as O2.
  revert H2 O2. generalize (step (Wait d1) (step (DragLeave first) w)) as w2.
  intros w2 H2 O2.
  pose proof (step_DragLeave_then_Wait w2 second d2 O2) as (_ & H4).
  rewrite H4, H2.
  destruct (isDraggingOver w), (Nat.ltb d1 50), (Nat.ltb d2 50); reflexivity.
Qed.

(** X4.  After a drop nothing is left to go off: however long one waits,
    no timer fires, nothing is added to the record and the plugin stays
    idle, also when a drag-leave was pending. *)
Theorem nothing_fires_after_drop
        (core : UppyState) (o : Options) (inputs : list Input)
        (event : DragEvent) (ms : nat) :
  let w := step (Drop event) (run inputs (install (new_DragDrop core o))) in
  timers w = [] /\
  trace (advance ms w) = trace w /\
  isDraggingOver (advance ms w) = false.
Proof.
  cbn zeta.
  pose proof (timers_owned_reachable core o inputs) as O0.
  revert O0. generalize (run inputs (install (new_DragDrop core o))) as w.
  intros w O0. cbn [step].
  destruct (handleDrop_state w event) as (Hd & _ & Ht & _).
  unfold worldOf in *. rewrite (cancel_owned w O0) in Ht.
  revert Hd Ht. generalize (fst (snd (handleDrop (w, event)))) as w1.
  intros w1 Hd Ht.
  split; [exact Ht |]. split; [now apply advance_settled_trace |].
  destruct (advance_idle_timers ms w1 Ht) as (Hd' & _). now rewrite Hd'.
Qed.


(** X6.  A submitted batch mirrors the files it was built from: reading the
    [data] of its descriptors gives back the files in the same order, none
    lost and none repeated, for a drop as for a picker change. *)
Theorem submitted_batches_mirror_files
        (w : World) (drop : DragEvent) (change : ChangeEvent) :
  map (map Descriptor.data)
      (submissions (emitted w (worldOf (handleDrop (w, drop))))) =
    match fst (getDroppedFiles (dataTransfer drop)) with
    | [] => []
    | files => [files]
    end /\
  map (map Descriptor.data)
      (submissions (emitted w (worldOf (onInputChange (w, change))))) =
    match target_files change with
    | [] => []
    | files => [files]
    end.
Proof.
  rewrite handleDrop_emitted, submissions_drop_effects.
  rewrite (emitted_app _ _ _ (onInputChange_trace w change)).
  rewrite submissions_app. split.
  - destruct (fst (getDroppedFiles (dataTransfer drop))) as [| file files];
      [reflexivity |].
    cbn [map]. now rewrite map_data_descriptorOf.
  - destruct (target_files change) as [| file files]; [reflexivity |].
    cbn [submissions app]. rewrite submissions_addFiles.
    cbn [map app]. now rewrite map_data_descriptorOf.
Qed.

Lemma errorLogs_app (l1 l2 : list Effect) :
  errorLogs (l1 ++ l2) = (errorLogs l1 ++ errorLogs l2)%list.
Proof.
  induction l1 as [| x l1 IH]; cbn; auto.
  destruct x; cbn; auto.
  destruct message; auto. destruct level as [level |]; auto.
  destruct (level =? "error"); cbn; now rewrite IH.
Qed.

Lemma errorLogs_dropErrors (errs : list JsError) :
  errorLogs (map (fun e => ELog (LogError e) (Some "error")) errs) = errs.
Proof. induction errs; cbn; congruence. Qed.

(** X7.  A drop logs at level ['error'] exactly the errors that
    [getDroppedFiles] reported, once each and in order, right after the
    traversal and before anything is submitted; a batch the orchestrator
    rejects is logged too, but not at that level. *)
Theorem drop_errors_logged_in_order (w : World) (event : DragEvent) :
  let effects := emitted w (worldOf (handleDrop (w, event))) in
  errorLogs effects = snd (getDroppedFiles (dataTransfer event)) /\
  exists rest,
    effects =
      ([EPreventDefault; EStopPropagation;
        EClearTimeout (removeDragOverClassTimeout w);
        ESetPluginState false;
        EGetDroppedFiles (dataTransfer event)]
       ++ map (fun e => ELog (LogError e) (Some "error"))
              (snd (getDroppedFiles (dataTransfer event)))
       ++ rest)%list /\
    errorLogs rest = [] /\
    submissions rest = submissions effects.
Proof.
  cbn zeta. rewrite handleDrop_emitted. unfold drop_effects.
  assert (Hrest :
            errorLogs
              (match fst (getDroppedFiles (dataTransfer event)) with
               | [] => []
               | files =>
                   ELog (LogText "[DragDrop] Files dropped") None
                   :: addFiles_effects w files
               end
               ++ match onDrop (opts w) with
                  | Some _ => [EObserver KDrop (stopped event)]
                  | None => []
                  end) = []).
  { rewrite errorLogs_app.
    destruct (fst (getDroppedFiles (dataTransfer event))); cbn;
      [| unfold addFiles_effects; destruct (fst (uppy_addFiles _ _)); cbn ];
      destruct (onDrop (opts w)); reflexivity. }
  split.
  - cbn [app errorLogs]. rewrite errorLogs_app, errorLogs_dropErrors, Hrest.
    now rewrite app_nil_r.
  - eexists. split; [reflexivity |]. split; [exact Hrest |].
    cbn [app submissions]. symmetry.
    now rewrite submissions_app, submissions_logs.
Qed.

(** X8.  [uppy.addFiles] is called only by a drop or a picker change that
    brings at least one file: a drag-over, a drag-leave, the passing of
    time, and a drop or change without files call it zero times. *)
Theorem addFiles_called_only_with_files (i : Input) (w : World) :
  match i with
  | Drop event => fst (getDroppedFiles (dataTransfer event)) = []
  | Change event => target_files event = []
  | _ => True
  end ->
  submissions (emitted w (step i w)) = [].
Proof.
  destruct i as [event | event | event | event | ms]; cbn [step]; intros Hnone.
  - pose proof (handleDragOver_trace w event) as Ht. unfold worldOf in Ht.
    rewrite (emitted_app _ _ _ Ht).
    destruct (accepts w event); [destruct (onDragOver (opts w)) |]; reflexivity.
  - pose proof (handleDragLeave_trace w event) as Ht. unfold worldOf in Ht.
    rewrite (emitted_app _ _ _ Ht).
    destruct (onDragLeave (opts w)); reflexivity.
  - pose proof (handleDrop_emitted w event) as He. unfold worldOf in He.
    rewrite He, submissions_drop_effects, Hnone. reflexivity.
  - pose proof (onInputChange_trace w event) as Ht. unfold worldOf in Ht.
    rewrite (emitted_app _ _ _ Ht), Hnone. reflexivity.
  - destruct (advance_trace ms w) as (Ht & _).
    rewrite (emitted_app _ _ _ Ht). apply submissions_fired.
Qed.

Lemma step_sources (i : Input) (w : World) :
  this_id (step i w) = this_id w /\
  exists added,
    trace (step i w) = (trace w ++ added)%list /\
    Forall (Forall (fun d => Descriptor.source d = this_id w)) (submissions added).
Proof.
  destruct i as [event | event | event | event | ms]; cbn [step].
  - split; [apply handleDragOver_identity |].
    eexists. split; [apply handleDragOver_trace |].
    destruct (accepts w event); [destruct (onDragOver (opts w)) |]; constructor.
  - split; [apply handleDragLeave_identity |].
    eexists. split; [apply handleDragLeave_trace |].
    destruct (onDragLeave (opts w)); constructor.
  - split; [apply handleDrop_identity |].
    eexists. split; [apply handleDrop_trace |].
    rewrite submissions_drop_effects.
    destruct (fst (getDroppedFiles (dataTransfer event))); constructor;
      [apply sources_descriptorOf | constructor].
  - split; [apply onInputChange_identity |].
    eexists. split; [apply onInputChange_trace |].
    rewrite submissions_app.
    destruct (target_files event) as [| file files]; [constructor |].
    cbn [submissions app]. rewrite submissions_addFiles.
    constructor; [apply sources_descriptorOf | constructor].
  - destruct (advance_trace ms w) as (Ht & Hi). split; [exact Hi |].
    eexists. split; [exact Ht |]. rewrite submissions_fired. constructor.
Qed.

Lemma run_sources (inputs : list Input) (w : World) :
  Forall (Forall (fun d => Descriptor.source d = this_id w)) (submissions (trace w)) ->
  Forall (Forall (fun d => Descriptor.source d = this_id w))
         (submissions (trace (run inputs w))).
Proof.
  revert w. induction inputs as [| i inputs IH]; intros w Hw; cbn [run fold_left].
  - exact Hw.
  - destruct (step_sources i w) as (Hid & added & Htr & Hadded).
    rewrite <- Hid. apply IH. rewrite Hid, Htr, submissions_app.
    apply Forall_app. split; assumption.
Qed.

(** X9.  Every descriptor a plugin ever submits, along any run, names the
    plugin as its source: the [id] option when that is a non-empty string,
    ['DragDrop'] otherwise. *)
Theorem every_descriptor_names_the_plugin
        (core : UppyState) (o : Options) (inputs : list Input) :
  Forall
    (Forall (fun d =>
               Descriptor.source d =
               match id o with
               | Some s => if s =? "" then "DragDrop" else s
               | None => "DragDrop"
               end))
    (submissions (trace (run inputs (install (new_DragDrop core o))))).
Proof.
  apply (run_sources inputs (install (new_DragDrop core o))).
  cbn. constructor.
Qed.

(** X10.  [isDraggingOver] changes in three ways only: an accepted
    drag-over turns it on, and a drop or a timer that has come due turns it
    off.  A drag-leave by itself, a rejected drag-over and a picker change
    never change it. *)
Theorem hover_changes_only_by (i : Input) (w : World) :
  isDraggingOver (step i w) <> isDraggingOver w ->
  (exists event,
      i = DragOver event /\ accepts w event = true /\
      isDraggingOver w = false /\ isDraggingOver (step i w) = true) \/
  (exists event,
      i = Drop event /\
      isDraggingOver w = true /\ isDraggingOver (step i w) = false) \/
  (exists ms t,
      i = Wait ms /\ In t (timers w) /\ snd t <= now w + ms /\
      isDraggingOver w = true /\ isDraggingOver (step i w) = false).
Proof.
  destruct i as [event | event | event | event | ms]; cbn [step]; intros Hchg.
  - left. exists event.
    destruct (handleDragOver_state w event) as (Hd & _).
    unfold worldOf in Hd. rewrite Hd in Hchg |- *.
    destruct (accepts w event); [| congruence].
    destruct (isDraggingOver w); [congruence | auto].
  - destruct (handleDragLeave_state w event) as (Hd & _).
    unfold worldOf in Hd. congruence.
  - right. left. exists event.
    destruct (handleDrop_state w event) as (Hd & _).
    unfold worldOf in Hd. rewrite Hd in Hchg |- *.
    destruct (isDraggingOver w); [auto | congruence].
  - destruct (onInputChange_state w event) as (Hd & _).
    unfold worldOf in Hd. congruence.
  - right. right.
    destruct (advance_state ms w) as (Hd & _).
    rewrite Hd in Hchg |- *.
    destruct (filter (fun t => Nat.leb (snd t) (now w + ms)) (timers w))
      as [| t due] eqn:Hdue; [congruence |].
    exists ms, t.
    assert (Hin : In t (filter (fun t => Nat.leb (snd t) (now w + ms)) (timers w)))
      by (rewrite Hdue; now left).
    apply filter_In in Hin as (Hin & Hle). apply Nat.leb_le in Hle.
    destruct (isDraggingOver w); [auto 6 | congruence].
Qed.

End HandlerProperties.

(* ===================================================================== *)
(** ** Objects *)

Lemma obj_get_set_same {V} (key : string) (v : V) (o : ObjectOf V) :
  obj_get key (obj_set key v o) = Some v.
Proof.
  induction o as [| [k x] o IH]; cbn.
  - now rewrite String.eqb_refl.
  - destruct (k =? key) eqn:Hk; cbn; rewrite Hk; auto.
Qed.

Lemma obj_get_set_other {V} (key key' : string) (v : V) (o : ObjectOf V) :
  key' <> key -> obj_get key' (obj_set key v o) = obj_get key' o.
Proof.
  intros Hne. induction o as [| [k x] o IH]; cbn.
  - destruct (String.eqb_spec key key'); congruence.
  - destruct (String.eqb_spec k key) as [-> | Hk]; cbn.
    + destruct (String.eqb_spec key key'); congruence.
    + destruct (k =? key'); auto.
Qed.

Lemma obj_get_absent {V} (key : string) (o : ObjectOf V) :
  ~ In key (map fst o) -> obj_get key o = None.
Proof.
  induction o as [| [k x] o IH]; cbn; auto.
  intros Hnot. destruct (String.eqb_spec k key) as [-> | Hk].
  - exfalso. apply Hnot. now left.
  - apply IH. intros Hin. apply Hnot. now right.
Qed.

Lemma obj_get_spread {V} (key : string) (source target : ObjectOf V) :
  NoDup (map fst source) ->
  obj_get key (obj_spread source target) =
    match obj_get key source with
    | Some v => Some v
    | None => obj_get key target
    end.
Proof.
  unfold obj_spread. revert target.
  induction source as [| [k x] source IH]; intros target Hnodup; cbn; auto.
  inversion Hnodup as [| ? ? Hnotin Hrest]; subst.
  rewrite (IH _ Hrest).
  destruct (String.eqb_spec k key) as [-> | Hk].
  - rewrite (obj_get_absent key source Hnotin). apply obj_get_set_same.
  - destruct (obj_get key source); auto.
    apply obj_get_set_other. congruence.
Qed.

Lemma obj_get_delete {V} (key key' : string) (o : ObjectOf V) :
  obj_get key' (obj_delete key o) =
    if key =? key' then None else obj_get key' o.
Proof.
  unfold obj_delete.
  induction o as [| [k x] o IH]; cbn [filter fst obj_get].
  - now destruct (key =? key').
  - destruct (String.eqb_spec k key) as [-> | Hk]; cbn [negb obj_get].
    + rewrite IH. destruct (key =? key'); reflexivity.
    + rewrite IH.
      destruct (String.eqb_spec k key') as [-> | Hk'].
      * destruct (String.eqb_spec key key'); congruence.
      * reflexivity.
Qed.

Lemma strict_eq_refl (a : JsAny) : strict_eq a a = true.
Proof.
  destruct a; cbn; auto using Nat.eqb_refl, String.eqb_refl.
  now destruct b.
Qed.

Lemma strict_eq_eq (a b : JsAny) : strict_eq a b = true -> a = b.
Proof.
  destruct a, b; cbn; try discriminate; auto; intros H.
  - apply Bool.eqb_prop in H. congruence.
  - apply Nat.eqb_eq in H. congruence.
  - apply String.eqb_eq in H. congruence.
  - apply Nat.eqb_eq in H. congruence.
Qed.

(** X11.  The constructor's option merge: every option the caller passes
    wins over the default, also one passed as [undefined]; an option the
    caller leaves out gets its default; so [target], [inputName], [width],
    [height] and [note] are always present. *)
Theorem mergedOpts_lookup (opts : JsObject) (key : string) :
  NoDup (map fst opts) ->
  obj_get key (mergedOpts opts) =
    match obj_get key opts with
    | Some v => Some v
    | None => obj_get key defaultOpts
    end /\
  (In key ["target"; "inputName"; "width"; "height"; "note"] ->
   obj_get key (mergedOpts opts) <> None).
Proof.
  intros Hnodup.
  assert (Hget : obj_get key (mergedOpts opts) =
                 match obj_get key opts with
                 | Some v => Some v
                 | None => obj_get key defaultOpts
                 end).
  { unfold mergedOpts. rewrite (obj_get_spread key opts _ Hnodup).
    destruct (obj_get key opts); reflexivity. }
  split; [exact Hget |].
  intros Hin. rewrite Hget. destruct (obj_get key opts); [discriminate |].
  cbn in Hin. intuition (subst; discriminate).
Qed.

Section RenderingProperties.
Context {C : Collaborators}.

(** X12.  The rendered button always carries the classes [uppy-Root],
    [uppy-u-reset] and [uppy-DragDrop-container]; it carries
    [uppy-DragDrop--isDraggingOver] exactly while [isDraggingOver] is true
    and [uppy-DragDrop--isDragDropSupported] exactly when drag and drop is
    supported, and no other class. *)
Theorem render_classes
        (this_opts restrictions : JsObject) (supported : bool) (w : World) :
  classList (render this_opts restrictions supported w) =
    (["uppy-Root"; "uppy-u-reset"; "uppy-DragDrop-container"]
     ++ (if supported then ["uppy-DragDrop--isDragDropSupported"] else [])
     ++ (if isDraggingOver w then ["uppy-DragDrop--isDraggingOver"] else []))%list /\
  (In "uppy-DragDrop--isDraggingOver"
      (classList (render this_opts restrictions supported w))
   <-> isDraggingOver w = true).
Proof.
  unfold classList, render, attribute, dragDropClass. cbn [obj_get String.eqb].
  destruct supported, (isDraggingOver w); vm_compute;
    (split; [reflexivity | intuition discriminate]).
Qed.

End RenderingProperties.

Section DragProperties.
Context {C : Collaborators}.

Lemma no_hover_from (inputs : list Input) (w : World) :
  isDraggingOver w = false ->
  allowNewUpload (uppy w) = false ->
  Forall (fun i => match i with
                   | DragOver _ | DragLeave _ | Wait _ => True
                   | _ => False
                   end) inputs ->
  Forall (fun w' => isDraggingOver w' = false /\ uppy w' = uppy w)
         (history inputs w).
Proof.
  revert w. induction inputs as [| i inputs IH]; intros w Hidle Hflag Hall;
    cbn [history]; [constructor |].
  inversion Hall as [| ? ? Hi Hrest]; subst.
  assert (Hstep : isDraggingOver (step i w) = false /\ uppy (step i w) = uppy w).
  { destruct i as [event | event | event | event | ms]; cbn [step];
      try contradiction.
    - destruct (handleDragOver_state w event) as (Hd & _ & _ & _ & Hu & _).
      unfold worldOf in *. rewrite Hd, Hu. unfold accepts. rewrite Hflag.
      rewrite andb_false_r. auto.
    - destruct (handleDragLeave_state w event) as (Hd & _ & _ & _ & Hu & _).
      unfold worldOf in *. rewrite Hd, Hu. auto.
    - destruct (advance_state ms w) as (Hd & _ & _ & _ & Hu & _).
      rewrite Hd, Hu. split; auto.
      destruct (filter _ (timers w)); auto. }
  revert Hstep. generalize (step i w) as w1. intros w1 (Hd1 & Hu1).
  constructor; [auto |].
  rewrite <- Hu1. apply IH; auto. now rewrite Hu1.
Qed.

(** X13.  While the orchestrator disallows new uploads, dragging never
    turns the hover state on: along any sequence of drag-overs, drag-leaves
    and waits on a fresh plugin, [isDraggingOver] is false after every
    input. *)
Theorem no_hover_while_uploads_disallowed
        (core : UppyState) (o : Options) (inputs : list Input) :
  allowNewUpload core = false ->
  Forall (fun i => match i with
                   | DragOver _ | DragLeave _ | Wait _ => True
                   | _ => False
                   end) inputs ->
  Forall (fun w => isDraggingOver w = false)
         (history inputs (install (new_DragDrop core o))).
Proof.
  intros Hflag Hall.
  pose proof (no_hover_from inputs (install (new_DragDrop core o))
                eq_refl Hflag Hall) as H.
  eapply Forall_impl; [| exact H]. cbn. tauto.
Qed.

End DragProperties.

(* ===================================================================== *)
(** ** The React wrapper *)

Section WrapperProperties.
Context {R : WrapperCollaborators}.

Lemma trackAll_app (inUse : option JsAny) (xs ys : list Call) :
  trackAll inUse (xs ++ ys) =
    match trackAll inUse xs with
    | Some inUse' => trackAll inUse' ys
    | None => None
    end.
Proof.
  revert inUse. induction xs as [| x xs IH]; intros inUse; cbn; auto.
  destruct (track inUse x); auto.
Qed.

Lemma installOptions_lookup (c : Dashboard) (key : string) :
  NoDup (map fst (props c)) ->
  obj_get key (installOptions c) =
    if key =? "uppy" then None
    else if key =? "target" then Some (container c)
    else match obj_get key (props c) with
         | Some v => Some v
         | None => if key =? "id" then Some (AnyString "react:Dashboard") else None
         end.
Proof.
  intros Hnodup. unfold installOptions.
  rewrite obj_get_delete, (String.eqb_sym "uppy" key).
  destruct (key =? "uppy"); [reflexivity |].
  destruct (String.eqb_spec key "target") as [-> | Hk].
  - apply obj_get_set_same.
  - rewrite (obj_get_set_other _ _ _ _ Hk), (obj_get_spread _ _ _ Hnodup).
    cbn [obj_get]. now rewrite (String.eqb_sym "id" key).
Qed.

Lemma updateOptions_lookup (c : Dashboard) (key : string) :
  NoDup (map fst (props c)) ->
  obj_get key (updateOptions c) =
    if key =? "uppy" then None
    else if key =? "target" then Some (container c)
    else obj_get key (props c).
Proof.
  intros Hnodup. unfold updateOptions.
  rewrite obj_get_delete, (String.eqb_sym "uppy" key).
  destruct (key =? "uppy"); [reflexivity |].
  destruct (String.eqb_spec key "target") as [-> | Hk].
  - apply obj_get_set_same.
  - rewrite (obj_get_set_other _ _ _ _ Hk), (obj_get_spread _ _ _ Hnodup).
    cbn [obj_get]. now destruct (obj_get key (props c)).
Qed.

(** X14.  [installPlugin] hands [uppy.use] the props with three changes:
    the [uppy] prop is taken out, [target] is always the component's own
    container, whatever the props say, and [id] is ['react:Dashboard']
    unless the props have an [id] of their own (also one that is
    [undefined]).  If [use] returns, the plugin kept in [this.plugin] is
    the one [getPlugin] finds under that id; if [use] throws, the error
    goes on to the caller and [this.plugin] stays as it was. *)
Theorem installPlugin_options (c : Dashboard) (key : string) :
  NoDup (map fst (props c)) ->
  isObject (js_read "uppy" (props c)) = true ->
  calls (snd (installPlugin c)) =
    (calls c ++ [CallUse (js_read "uppy" (props c)) (installOptions c)])%list /\
  match core_throws (calls c) (CallUse (js_read "uppy" (props c)) (installOptions c)) with
  | None =>
      fst (installPlugin c) = Ok tt /\
      plugin (snd (installPlugin c)) =
        getPlugin (calls c ++ [CallUse (js_read "uppy" (props c)) (installOptions c)])
                  (js_read "uppy" (props c)) (js_read "id" (installOptions c))
  | Some e =>
      fst (installPlugin c) = Throw e /\
      plugin (snd (installPlugin c)) = plugin c
  end /\
  obj_get key (installOptions c) =
    (if key =? "uppy" then None
     else if key =? "target" then Some (container c)
     else match obj_get key (props c) with
          | Some v => Some v
          | None => if key =? "id" then Some (AnyString "react:Dashboard") else None
          end).
Proof.
  intros Hnodup Huppy. unfold installPlugin, invoke. rewrite Huppy.
  destruct (core_throws (calls c) _); cbn;
    (split; [reflexivity |]; split; [split; reflexivity |]);
    now apply installOptions_lookup.
Qed.

(** X15.  When the props change but [uppy] stays the same instance,
    [componentDidUpdate] neither installs nor removes anything: if
    [nonHtmlPropsHaveChanged] says so it calls [setOptions] once on the
    installed plugin, with the props minus [uppy] and with [target] set to
    the container (no default [id] this time), and it ends as that call
    ends; otherwise it does nothing. *)
Theorem componentDidUpdate_forwards_props
        (prevProps : JsObject) (c : Dashboard) (key : string) :
  NoDup (map fst (props c)) ->
  strict_eq (js_read "uppy" prevProps) (js_read "uppy" (props c)) = true ->
  isObject (plugin c) = true ->
  componentDidUpdate prevProps c =
    (if nonHtmlPropsHaveChanged c prevProps
     then (match core_throws (calls c)
                   (CallSetOptions (plugin c) (updateOptions c)) with
           | None => Ok tt
           | Some e => Throw e
           end,
           record (CallSetOptions (plugin c) (updateOptions c)) c)
     else (Ok tt, c)) /\
  obj_get key (updateOptions c) =
    (if key =? "uppy" then None
     else if key =? "target" then Some (container c)
     else obj_get key (props c)).
Proof.
  intros Hnodup Hsame Hplugin. unfold componentDidUpdate, invoke.
  rewrite Hsame, Hplugin. cbn.
  split; [reflexivity | now apply updateOptions_lookup].
Qed.

Lemma lifecycle_Mount_tracked (node : JsAny) (c : Dashboard) :
  calls c = [] ->
  (fst (lifecycle (Mount node) c) = Ok tt /\
   tracks_installed (snd (lifecycle (Mount node) c))) \/
  (fst (lifecycle (Mount node) c) <> Ok tt /\
   exists inUse,
     trackAll None (calls (snd (lifecycle (Mount node) c))) = Some inUse).
Proof.
  intros Hcalls.
  unfold lifecycle, componentDidMount, installPlugin, invoke, tracks_installed.
  cbn. destruct (isObject (js_read "uppy" (props c))); cbn.
  - destruct (core_throws _ _); cbn; rewrite Hcalls; cbn.
    + right. split; [discriminate |]. eexists. reflexivity.
    + left. auto.
  - right. split; [discriminate |]. rewrite Hcalls. eexists. reflexivity.
Qed.

Lemma lifecycle_Update_tracked (nextProps : JsObject) (c : Dashboard) :
  tracks_installed c ->
  (fst (lifecycle (Update nextProps) c) = Ok tt /\
   tracks_installed (snd (lifecycle (Update nextProps) c))) \/
  (fst (lifecycle (Update nextProps) c) <> Ok tt /\
   exists inUse,
     trackAll None (calls (snd (lifecycle (Update nextProps) c))) = Some inUse).
Proof.
  unfold tracks_installed. intros Hinv.
  unfold lifecycle, componentDidUpdate, uninstallPlugin, installPlugin, invoke.
  cbn.
  destruct (strict_eq (js_read "uppy" (props c)) (js_read "uppy" nextProps))
    eqn:Hsame; cbn.
  - apply strict_eq_eq in Hsame.
    destruct (nonHtmlPropsHaveChanged _ (props c)); cbn.
    + destruct (isObject (plugin c)); cbn.
      * assert (Htr : trackAll None
                        (calls c ++ [CallSetOptions (plugin c)
                           (updateOptions
                              (set_validProps (getHTMLProps nextProps)
                                 (set_props nextProps c)))])
                      = Some (Some (js_read "uppy" nextProps))).
        { rewrite trackAll_app, Hinv. cbn. now rewrite Hsame. }
        destruct (core_throws (calls c) _); cbn.
        -- right. split; [discriminate | eauto].
        -- left. auto.
      * right. split; [discriminate | eauto].
    + left. split; [reflexivity |]. now rewrite <- Hsame.
  - destruct (isObject (js_read "uppy" (props c))); cbn.
    + assert (Hrem : forall x,
                trackAll None (calls c ++ [CallRemovePlugin (js_read "uppy" (props c)) x])
                = Some None).
      { intros x. rewrite trackAll_app, Hinv. cbn. now rewrite strict_eq_refl. }
      destruct (core_throws (calls c) _); cbn.
      * right. split; [discriminate | eauto].
      * destruct (isObject (js_read "uppy" nextProps)); cbn.
        -- assert (Huse : forall x o,
                     trackAll None
                       ((calls c ++ [CallRemovePlugin (js_read "uppy" (props c)) x])
                        ++ [CallUse (js_read "uppy" nextProps) o])
                     = Some (Some (js_read "uppy" nextProps))).
           { intros x o. rewrite trackAll_app, Hrem. reflexivity. }
           destruct (core_throws _ _); cbn.
           ++ right. split; [discriminate | eauto].
           ++ left. auto.
        -- right. split; [discriminate | eauto].
    + right. split; [discriminate | eauto].
Qed.

Lemma lifecycle_Unmount_tracked (c : Dashboard) :
  tracks_installed c ->
  (fst (lifecycle Unmount c) = Ok tt /\
   trackAll None (calls (snd (lifecycle Unmount c))) = Some None) \/
  (fst (lifecycle Unmount c) <> Ok tt /\
   exists inUse,
     trackAll None (calls (snd (lifecycle Unmount c))) = Some inUse).
Proof.
  unfold tracks_installed. intros Hinv.
  unfold lifecycle, componentWillUnmount, uninstallPlugin, invoke.
  destruct (isObject (js_read "uppy" (props c))); cbn.
  - assert (Hrem : trackAll None
                     (calls c ++ [CallRemovePlugin (js_read "uppy" (props c)) (plugin c)])
                   = Some None).
    { rewrite trackAll_app, Hinv. cbn. now rewrite strict_eq_refl. }
    destruct (core_throws (calls c) _); cbn.
    + right. split; [discriminate | eauto].
    + left. auto.
  - right. split; [discriminate | eauto].
Qed.

Lemma updates_tracked (updates : list JsObject) (c : Dashboard) :
  tracks_installed c ->
  exists inUse,
    trackAll None (calls (snd (lifecycles (map Update updates ++ [Unmount]) c)))
      = Some inUse /\
    (fst (lifecycles (map Update updates ++ [Unmount]) c) = Ok tt ->
     inUse = None).
Proof.
  revert c. induction updates as [| p updates IH]; intros c Hinv;
    cbn [map app lifecycles].
  - destruct (lifecycle_Unmount_tracked c Hinv) as [(Hok & Hnone) | (Hthrow & Hsome)];
      destruct (lifecycle Unmount c) as [[[] | e] c']; cbn in *;
      try congruence.
    + eauto.
    + destruct Hsome as (inUse & Hsome). exists inUse.
      split; [exact Hsome | discriminate].
  - destruct (lifecycle_Update_tracked p c Hinv) as [(Hok & Hinv') | (Hthrow & Hsome)];
      destruct (lifecycle (Update p) c) as [[[] | e] c']; cbn in *;
      try congruence.
    + now apply IH.
    + destruct Hsome as (inUse & Hsome). exists inUse.
      split; [exact Hsome | discriminate].
Qed.

(** X16.  Over a whole life of the component (mount, any number of prop
    changes, unmount, ending at the first step that throws) and whatever
    the core answers, the calls the component makes are in order: [use]
    and [removePlugin] alternate, starting with [use]; every
    [removePlugin] goes to the Uppy instance that the [use] before it went
    to, which on a change of the [uppy] prop is the previous props'
    instance; [setOptions] is only called between a [use] and its
    [removePlugin].  A life that runs to its end ends with a
    [removePlugin]. *)
Theorem wrapper_calls_in_order
        (p : JsObject) (node : JsAny) (updates : list JsObject) :
  let r := lifecycles (Mount node :: map Update updates ++ [Unmount])
                      (new_Dashboard p) in
  exists inUse,
    trackAll None (calls (snd r)) = Some inUse /\
    (fst r = Ok tt -> inUse = None).
Proof.
  cbn zeta. cbn [lifecycles app].
  destruct (lifecycle_Mount_tracked node (new_Dashboard p) eq_refl)
    as [(Hok & Hinv) | (Hthrow & Hsome)];
    destruct (lifecycle (Mount node) (new_Dashboard p)) as [[[] | e] c'];
    cbn in *; try congruence.
  - now apply updates_tracked.
  - destruct Hsome as (inUse & Hsome). exists inUse.
    split; [exact Hsome | discriminate].
Qed.

Lemma obj_get_map_values {V W} (f : V -> W) (key : string) (o : ObjectOf V) :
  obj_get key (map (fun kv => (fst kv, f (snd kv))) o) = option_map f (obj_get key o).
Proof.
  induction o as [| [k x] o IH]; cbn; auto.
  destruct (k =? key); auto.
Qed.

(** X18.  [render] changes nothing but [this.validProps].  The [div] it
    returns is given every HTML prop, and an HTML prop named [className] or
    [ref] replaces the component's own: the class [uppy-Container] is only
    there when the props bring no [className]. *)
Theorem render_Dashboard_attributes (c : Dashboard) (key : string) :
  NoDup (map fst (getHTMLProps (props c))) ->
  validProps (fst (render_Dashboard c)) = getHTMLProps (props c) /\
  props (fst (render_Dashboard c)) = props c /\
  plugin (fst (render_Dashboard c)) = plugin c /\
  container (fst (render_Dashboard c)) = container c /\
  calls (fst (render_Dashboard c)) = calls c /\
  attribute key (snd (render_Dashboard c)) =
    match obj_get key (getHTMLProps (props c)) with
    | Some v => Some (AAny v)
    | None =>
        if key =? "className" then Some (AStr "uppy-Container")
        else if key =? "ref" then Some (AHandler HSetContainer)
        else None
    end.
Proof.
  intros Hnodup. unfold render_Dashboard, attribute. cbn [fst snd validProps
    set_validProps props plugin container calls].
  repeat split.
  rewrite obj_get_spread.
  - rewrite obj_get_map_values.
    destruct (obj_get key (getHTMLProps (props c))); cbn [option_map obj_get];
      [reflexivity |].
    now rewrite (String.eqb_sym "className" key), (String.eqb_sym "ref" key).
  - rewrite map_map. cbn [fst]. exact Hnodup.
Qed.

End WrapperProperties.

(* ===================================================================== *)
(** ** More concrete runs *)

Lemma addFiles_called_only_with_files_witness :
  fst (getDroppedFiles (Collaborators := sampleCollaborators) (dataTransfer textDrag))
    = [] /\
  submissions (emitted hoveringWorld (step (Drop textDrag) hoveringWorld)) = [].
Proof.
  split; [reflexivity |].
  exact (addFiles_called_only_with_files (Drop textDrag) hoveringWorld eq_refl).
Defined.

Lemma hover_changes_only_by_witness :
  isDraggingOver (step (Drop fileDrag) hoveringWorld) <> isDraggingOver hoveringWorld /\
  ((exists event,
       Drop fileDrag = DragOver event /\ accepts hoveringWorld event = true /\
       isDraggingOver hoveringWorld = false /\
       isDraggingOver (step (Drop fileDrag) hoveringWorld) = true) \/
   (exists event,
       Drop fileDrag = Drop event /\
       isDraggingOver hoveringWorld = true /\
       isDraggingOver (step (Drop fileDrag) hoveringWorld) = false) \/
   (exists ms t,
       Drop fileDrag = Wait ms /\ In t (timers hoveringWorld) /\
       snd t <= now hoveringWorld + ms /\
       isDraggingOver hoveringWorld = true /\
       isDraggingOver (step (Drop fileDrag) hoveringWorld) = false)).
Proof.
  assert (Hchg : isDraggingOver (step (Drop fileDrag) hoveringWorld)
                 <> isDraggingOver hoveringWorld) by (vm_compute; discriminate).
  split; [exact Hchg |].
  exact (hover_changes_only_by (Drop fileDrag) hoveringWorld Hchg).
Defined.

Lemma no_hover_while_uploads_disallowed_witness :
  allowNewUpload (uppy (sampleWorld false allObservers)) = false /\
  Forall (fun w => isDraggingOver w = false)
         (history [DragOver fileDrag; Wait 10; DragLeave fileDrag; Wait 100;
                   DragOver fileDrag]
                  (sampleWorld false allObservers)).
Proof.
  split; [reflexivity |].
  apply (no_hover_while_uploads_disallowed
           (C := sampleCollaborators) (mkSampleUppy false []) allObservers).
  - reflexivity.
  - repeat constructor.
Defined.

Lemma mergedOpts_lookup_witness :
  NoDup (map fst [("width", AnyUndefined); ("note", AnyString "drop here")]) /\
  obj_get "width" (mergedOpts [("width", AnyUndefined); ("note", AnyString "drop here")])
    = Some AnyUndefined /\
  obj_get "height" (mergedOpts [("width", AnyUndefined); ("note", AnyString "drop here")])
    = Some (AnyString "100%").
Proof.
  assert (Hnodup : NoDup (map fst [("width", AnyUndefined);
                                   ("note", AnyString "drop here")])).
  { repeat constructor; cbn; intuition discriminate. }
  split; [exact Hnodup |]. split.
  - exact (proj1 (mergedOpts_lookup _ "width" Hnodup)).
  - exact (proj1 (mergedOpts_lookup _ "height" Hnodup)).
Defined.

Lemma sampleProps_keys : NoDup (map fst sampleProps).
Proof. repeat constructor; cbn; intuition discriminate. Qed.

Lemma changedProps_keys : NoDup (map fst changedProps).
Proof. repeat constructor; cbn; intuition discriminate. Qed.

Lemma installPlugin_options_witness :
  NoDup (map fst (props (set_container (AnyObject 9) (new_Dashboard sampleProps)))) /\
  isObject (js_read "uppy" (props (set_container (AnyObject 9) (new_Dashboard sampleProps))))
    = true /\
  obj_get "target" (installOptions (set_container (AnyObject 9) (new_Dashboard sampleProps)))
    = Some (AnyObject 9) /\
  obj_get "id" (installOptions (set_container (AnyObject 9) (new_Dashboard sampleProps)))
    = Some AnyUndefined.
Proof.
  split; [exact sampleProps_keys |]. split; [reflexivity |]. split.
  - exact (proj2 (proj2
      (installPlugin_options (R := sampleWrapper)
         (set_container (AnyObject 9) (new_Dashboard sampleProps)) "target"
         sampleProps_keys eq_refl))).
  - exact (proj2 (proj2
      (installPlugin_options (R := sampleWrapper)
         (set_container (AnyObject 9) (new_Dashboard sampleProps)) "id"
         sampleProps_keys eq_refl))).
Defined.

Lemma componentDidUpdate_forwards_props_witness :
  NoDup (map fst (props updatedDashboard)) /\
  strict_eq (js_read "uppy" plainProps) (js_read "uppy" (props updatedDashboard)) = true /\
  isObject (plugin updatedDashboard) = true /\
  componentDidUpdate (R := sampleWrapper) plainProps updatedDashboard =
    (Ok tt,
     record (CallSetOptions (plugin updatedDashboard) (updateOptions updatedDashboard))
            updatedDashboard) /\
  obj_get "id" (updateOptions updatedDashboard) = None.
Proof.
  split; [exact changedProps_keys |]. split; [reflexivity |]. split; [reflexivity |].
  destruct (componentDidUpdate_forwards_props (R := sampleWrapper)
              plainProps updatedDashboard "id" changedProps_keys eq_refl eq_refl)
    as (Hcall & Hid).
  split; [exact Hcall | exact Hid].
Defined.

Lemma render_Dashboard_attributes_witness :
  NoDup (map fst (getHTMLProps (WrapperCollaborators := sampleWrapper)
                               (props (new_Dashboard sampleProps)))) /\
  attribute "className"
     (snd (render_Dashboard (R := sampleWrapper) (new_Dashboard sampleProps)))
    = Some (AStr "uppy-Container").
Proof.
  assert (Hnodup : NoDup (map fst (getHTMLProps (WrapperCollaborators := sampleWrapper)
                                                (props (new_Dashboard sampleProps))))).
  { cbn. repeat constructor; cbn; intuition discriminate. }
  split; [exact Hnodup |].
  exact (proj2 (proj2 (proj2 (proj2 (proj2
    (render_Dashboard_attributes (R := sampleWrapper)
       (new_Dashboard sampleProps) "className" Hnodup)))))).
Defined.
